(** * digital_ocean_domain_record: create/delete a DNS record in DigitalOcean

    A shallow embedding of
    [lib/ansible/modules/cloud/digital_ocean/digital_ocean_domain_record.py]
    (Python 2, as the module's [e.message] and list-valued [map] require) and
    the properties of its reconciliation logic.

    Layout: Python values and exceptions; the instance dictionaries of
    [DomainRecord]; module parameters and environment; the dopy client as
    an interface; a state-and-exception monad threading the class-level
    manager handles, the log of requests sent through the client and the
    remote record store; the classes [DomainRecord] and [Domain], [core]
    and [main]; sample clients and requests; the predicates the properties
    are stated with; a small program logic for runs; then the lemmas and
    theorems. [changed = True] in [core] is never read and is left out. *)

From Stdlib Require Import ZArith String List Bool Lia.
From stdpp Require Import base option list gmap strings pretty.

Local Open Scope Z_scope.
Local Open Scope string_scope.
Local Open Scope list_scope.

(** ** Python values *)

(** The scalar values that occur in module parameters and in the JSON the
    provider returns for a record's fields. *)
Inductive pyval :=
| PyNone
| PyBool (b : bool)
| PyInt (z : Z)
| PyStr (s : string).

#[global] Instance pyval_eq_dec : EqDecision pyval.
Proof. solve_decision. Defined.

(** [bool] is a subclass of [int]: [True == 1] and [False == 0]. *)
Definition as_number (v : pyval) : option Z :=
  match v with
  | PyBool b => Some (if b then 1 else 0)
  | PyInt z => Some z
  | _ => None
  end.

(** The operator [==] on these values. *)
Definition py_eq (a b : pyval) : bool :=
  match a, b with
  | PyNone, PyNone => true
  | PyStr s, PyStr t => String.eqb s t
  | _, _ =>
      match as_number a, as_number b with
      | Some x, Some y => Z.eqb x y
      | _, _ => false
      end
  end.

(** Truth value of an object, as [or], [not] and [if] test it. *)
Definition truthy (v : pyval) : bool :=
  match v with
  | PyNone => false
  | PyBool b => b
  | PyInt z => negb (Z.eqb z 0)
  | PyStr EmptyString => false
  | PyStr _ => true
  end.

(** [str(v)], the text [%s] formats. *)
Definition py_str (v : pyval) : string :=
  match v with
  | PyNone => "None"
  | PyBool true => "True"
  | PyBool false => "False"
  | PyInt z => pretty z
  | PyStr s => s
  end.

(** [needle in hay] on strings: [needle] occurs as a contiguous run. *)
Fixpoint str_in (needle hay : string) : bool :=
  String.prefix needle hay ||
  match hay with
  | EmptyString => false
  | String _ rest => str_in needle rest
  end.

Definition opt_str (o : option string) : pyval :=
  match o with Some s => PyStr s | None => PyNone end.

Definition opt_int (o : option Z) : pyval :=
  match o with Some z => PyInt z | None => PyNone end.

(** A JSON document handed to or received from a collaborator: a scalar or
    an object with scalar members. *)
Inductive json :=
| JVal (v : pyval)
| JObj (d : gmap string pyval).

(** Keyword arguments of [exit_json] / [fail_json], in call order. *)
Abbreviation kwargs := (list (string * json)).

(** ** Exceptions *)

Inductive exn :=
| SystemExit (code : Z) (output : kwargs)
| DoError (msg : string)
| TimeoutError (msg : string) (id : pyval)
| KeyError (key : string)
| AttributeError (msg : string)
| TypeError (msg : string)
| OtherException (msg : string).

(** [class TimeoutError(DoError)]: [__init__(self, msg, id)] passes [msg] to
    the base class and keeps [id]. *)
Definition isinstance_TimeoutError (e : exn) : bool :=
  match e with TimeoutError _ _ => true | _ => false end.

Definition isinstance_DoError (e : exn) : bool :=
  match e with DoError _ | TimeoutError _ _ => true | _ => false end.

(** [SystemExit] derives from [BaseException], not from [Exception]. *)
Definition isinstance_Exception (e : exn) : bool :=
  match e with SystemExit _ _ => false | _ => true end.

Definition isinstance_KeyError (e : exn) : bool :=
  match e with KeyError _ => true | _ => false end.

(** [str(e)]: the single constructor argument; for [KeyError] its [repr]. *)
Definition exn_str (e : exn) : string :=
  match e with
  | SystemExit code _ => pretty code
  | DoError msg | TimeoutError msg _ | AttributeError msg
  | TypeError msg | OtherException msg => msg
  | KeyError key => "'" +:+ key +:+ "'"
  end.

(** [e.message] (Python 2): the single constructor argument. *)
Definition exn_message (e : exn) : string :=
  match e with
  | SystemExit code _ => pretty code
  | DoError msg | TimeoutError msg _ | AttributeError msg
  | TypeError msg | OtherException msg => msg
  | KeyError key => key
  end.

(** ** Outcomes: a value or a raised exception *)

Inductive outcome (A : Type) :=
| Ok (a : A)
| Raise (e : exn).
Arguments Ok {A} a.
Arguments Raise {A} e.

#[global] Instance outcome_ret : MRet outcome := λ A a, Ok a.
#[global] Instance outcome_bind : MBind outcome := λ A B f c,
  match c with Ok a => f a | Raise e => Raise e end.

(** [a and b] on comparisons: [b] is evaluated only when [a] holds. *)
Definition py_and (a b : outcome bool) : outcome bool :=
  a ≫= λ x : bool, if x then b else Ok false.

Infix "&&&" := py_and (at level 40, left associativity).

(** ** Instances of [DomainRecord] *)

(** [__init__(self, json)] does [self.__dict__.update(json)] on a fresh
    instance: the instance dictionary is the provider's JSON object. *)
Record DomainRecord := { __dict__ : gmap string pyval }.

(** [record.a] for a data attribute: the class defines none of the names
    read from instances ([type], [data], [name], [priority], [port],
    [weight], [id]), so the instance dictionary decides. *)
Definition getattr (record : DomainRecord) (a : string) : outcome pyval :=
  match __dict__ record !! a with
  | Some v => Ok v
  | None =>
      Raise (AttributeError
               ("'DomainRecord' object has no attribute '" +:+ a +:+ "'"))
  end.

(** What [find_record] returns and [core] binds to [record]: an instance, or
    the constant [False]. *)
Inductive found :=
| Instance (record : DomainRecord)
| PyFalse.

(** Instances define neither [__nonzero__] nor [__len__]: they are true. *)
Definition found_truthy (r : found) : bool :=
  match r with Instance _ => true | PyFalse => false end.

Definition found_getattr (r : found) (a : string) : outcome pyval :=
  match r with
  | Instance record => getattr record a
  | PyFalse =>
      Raise (AttributeError ("'bool' object has no attribute '" +:+ a +:+ "'"))
  end.

Definition type_name (v : pyval) : string :=
  match v with
  | PyNone => "NoneType"
  | PyBool _ => "bool"
  | PyInt _ => "int"
  | PyStr _ => "str"
  end.

(** [record.to_json()]: [JsonfyMixIn.to_json] returns [self.__dict__]; a
    member named [to_json] in the instance dictionary would shadow the
    method with a scalar, which cannot be called. *)
Definition to_json (r : found) : outcome (gmap string pyval) :=
  match r with
  | Instance record =>
      match __dict__ record !! "to_json" with
      | Some v => Raise (TypeError ("'" +:+ type_name v +:+ "' object is not callable"))
      | None => Ok (__dict__ record)
      end
  | PyFalse => Raise (AttributeError "'bool' object has no attribute 'to_json'")
  end.

(** The test of [find_record]'s loop body, a chain of [==] joined by [and]. *)
Definition record_matches (record : DomainRecord)
    (type data name priority port weight : pyval) : outcome bool :=
  (v ← getattr record "type"; Ok (py_eq v type)) &&&
  (v ← getattr record "data"; Ok (py_eq v data)) &&&
  (v ← getattr record "name"; Ok (py_eq v name)) &&&
  (v ← getattr record "priority"; Ok (py_eq v priority)) &&&
  (v ← getattr record "port"; Ok (py_eq v port)) &&&
  (v ← getattr record "weight"; Ok (py_eq v weight)).

(** The [for] loop of [find_record] and the [return False] after it. *)
Fixpoint find_in (all_records : list DomainRecord)
    (type data name priority port weight : pyval) : outcome found :=
  match all_records with
  | [] => Ok PyFalse
  | record :: rest =>
      record_matches record type data name priority port weight ≫= λ hit : bool,
      if hit then Ok (Instance record)
      else find_in rest type data name priority port weight
  end.

(** ** Module parameters and the process environment *)

(** [module.params] as [AnsibleModule] builds it from [main]'s
    [argument_spec]: every key of the spec is present; a parameter the
    caller left out holds its default ([state], [type]) or [None]; [str]
    and [int] parameters hold values of that type. *)
Record AnsibleModule := {
  param_state : string;
  param_api_token : option string;
  param_domain : option string;
  param_type : option string;
  param_name : option string;
  param_data : option string;
  param_priority : option Z;
  param_port : option Z;
  param_weight : option Z }.

(** [module.params[k]]. *)
Definition params (module : AnsibleModule) (k : string) : outcome pyval :=
  if String.eqb k "state" then Ok (PyStr (param_state module))
  else if String.eqb k "api_token" then Ok (opt_str (param_api_token module))
  else if String.eqb k "domain" then Ok (opt_str (param_domain module))
  else if String.eqb k "type" then Ok (opt_str (param_type module))
  else if String.eqb k "name" then Ok (opt_str (param_name module))
  else if String.eqb k "data" then Ok (opt_str (param_data module))
  else if String.eqb k "priority" then Ok (opt_int (param_priority module))
  else if String.eqb k "port" then Ok (opt_int (param_port module))
  else if String.eqb k "weight" then Ok (opt_int (param_weight module))
  else Raise (KeyError k).

(** [os.environ[k]]. *)
Definition os_environ (environ : gmap string string) (k : string) : outcome pyval :=
  match environ !! k with
  | Some v => Ok (PyStr v)
  | None => Raise (KeyError k)
  end.

(** [x in hay] for a string literal [hay]. *)
Definition py_in (x : pyval) (hay : string) : outcome bool :=
  match x with
  | PyStr s => Ok (str_in s hay)
  | _ => Raise (TypeError "'in <string>' requires string as left operand")
  end.

(** ** The dopy client *)

(** [DoManager(client_id, api_key, api_version)]: the client object only
    records its arguments. *)
Record DoManager := {
  client_id : pyval;
  api_key : pyval;
  api_version : Z }.

(** The three [DoManager] methods the module calls. dopy is a third-party
    library: each method is an arbitrary function of the manager, its
    arguments and the remote store, returning its result or raising. *)
Record Dopy := {
  world : Type;
  all_domain_records :
    DoManager → pyval → world → outcome (list (gmap string pyval)) * world;
  new_domain_record :
    DoManager → pyval → pyval → pyval → pyval → pyval → pyval → pyval →
    world → outcome (gmap string pyval) * world;
  destroy_domain_record :
    DoManager → pyval → pyval → world → outcome json * world }.

(** A request sent through the client. *)
Inductive call :=
| ListRecords (domain : pyval)
| CreateRecord (domain type data name priority port weight : pyval)
| DeleteRecord (domain id : pyval).

Definition mutating (c : call) : bool :=
  match c with ListRecords _ => false | _ => true end.

(** [DoManager(None, api_token, api_version=2)], the manager [Domain.setup]
    builds. *)
Definition manager_for (api_token : pyval) : DoManager :=
  {| client_id := PyNone; api_key := api_token; api_version := 2 |}.

(** The token expression of [core],
    [module.params['api_token'] or os.environ['DO_API_TOKEN'] or
    os.environ['DO_API_KEY']]: what [api_token] is bound to, or the
    [KeyError] of the lookup that failed. *)
Definition resolve_token (module : AnsibleModule) (environ : gmap string string)
    : outcome pyval :=
  params module "api_token" ≫= λ a : pyval,
  if truthy a then Ok a else
  os_environ environ "DO_API_TOKEN" ≫= λ t : pyval,
  if truthy t then Ok t else
  os_environ environ "DO_API_KEY".

(** ** The module, over an arbitrary dopy client *)

Section Module.

Context (api : Dopy).

(** What one run of the module reads and writes: the class attributes
    [Domain.manager] and [DomainRecord.manager] (both [None] when the module
    is loaded), the requests sent so far, oldest first, and the remote
    store. *)
Record state := {
  Domain_manager : option DoManager;
  DomainRecord_manager : option DoManager;
  calls : list call;
  remote : world api }.

Definition M (A : Type) : Type := state → outcome A * state.

#[global] Instance M_ret : MRet M := λ A a s, (Ok a, s).
#[global] Instance M_bind : MBind M := λ A B f c s,
  match c s with
  | (Ok a, s') => f a s'
  | (Raise e, s') => (Raise e, s')
  end.

Definition lift {A} (o : outcome A) : M A := λ s, (o, s).

Definition raise {A} (e : exn) : M A := λ s, (Raise e, s).

(** [try: body / except C1 as e: h1 / except C2 as e: h2 ...]: the first
    clause whose classes the exception is an instance of handles it; what a
    handler raises is not offered to the later clauses. *)
Fixpoint handle {A} (clauses : list ((exn → bool) * (exn → M A))) (e : exn) : M A :=
  match clauses with
  | [] => raise e
  | (classes, handler) :: rest => if classes e then handler e else handle rest e
  end.

Definition try_except {A} (body : M A) (clauses : list ((exn → bool) * (exn → M A)))
    : M A := λ s,
  match body s with
  | (Raise e, s') => handle clauses e s'
  | r => r
  end.

(** Modelled from the spec: [AnsibleModule.exit_json] (ansible.module_utils.basic,
    not among the sources) ends the process with success status and the
    result envelope built from its keyword arguments; it leaves through
    [sys.exit], which raises [SystemExit]. *)
Definition exit_json {A} (kw : kwargs) : M A := raise (SystemExit 0 kw).

(** Modelled from the spec: [AnsibleModule.fail_json] (ansible.module_utils.basic,
    not among the sources) ends the process with failure status and the
    failure envelope built from its keyword arguments, likewise through
    [SystemExit]. *)
Definition fail_json {A} (kw : kwargs) : M A := raise (SystemExit 1 kw).

(** A method call on the client: logged, answered by the remote side. *)
Definition request {A} (c : call) (send : world api → outcome A * world api) : M A :=
  λ s, let '(r, w) := send (remote s) in
       (r, {| Domain_manager := Domain_manager s;
              DomainRecord_manager := DomainRecord_manager s;
              calls := calls s ++ [c];
              remote := w |}).

(** [cls.manager.<method>]: the class attribute must hold a manager. *)
Definition cls_manager (attr : state → option DoManager) (method : string) : M DoManager :=
  λ s, match attr s with
       | Some manager => (Ok manager, s)
       | None =>
           (Raise (AttributeError
                     ("'NoneType' object has no attribute '" +:+ method +:+ "'")), s)
       end.

(** *** class DomainRecord *)

Definition DomainRecord_list_all (domain : pyval) : M (list DomainRecord) :=
  manager ← cls_manager DomainRecord_manager "all_domain_records";
  domain_records ← request (ListRecords domain) (all_domain_records api manager domain);
  mret (map Build_DomainRecord domain_records).

Definition DomainRecord_destroy (domain id : pyval) : M json :=
  manager ← cls_manager DomainRecord_manager "destroy_domain_record";
  json ← request (DeleteRecord domain id) (destroy_domain_record api manager domain id);
  mret json.

Definition DomainRecord_add (domain type data name priority port weight : pyval)
    : M DomainRecord :=
  manager ← cls_manager DomainRecord_manager "new_domain_record";
  json ← request (CreateRecord domain type data name priority port weight)
           (new_domain_record api manager domain type data name priority port weight);
  mret (Build_DomainRecord json).

Definition DomainRecord_find_record (domain type data name priority port weight : pyval)
    : M found :=
  all_records ← DomainRecord_list_all domain;
  lift (find_in all_records type data name priority port weight).

(** *** class Domain *)

Definition Domain_setup (api_token : pyval) : M unit := λ s,
  let manager := Some (manager_for api_token) in
  (Ok tt, {| Domain_manager := manager;
             DomainRecord_manager := manager;
             calls := calls s;
             remote := remote s |}).

(** *** core *)

Definition getkeyordie (module : AnsibleModule) (k : string) : M pyval :=
  v ← lift (params module k);
  (if decide (v = PyNone)
   then fail_json [("msg", JVal (PyStr ("Unable to load " +:+ k)))]
   else mret tt);;
  mret v.

(** The first statement of [core]: the token expression under its
    [except KeyError]. *)
Definition core_api_token (module : AnsibleModule) (environ : gmap string string)
    : M pyval :=
  try_except
    (lift (resolve_token module environ))
    [(isinstance_KeyError,
      λ e, fail_json [("msg", JVal (PyStr ("Unable to load " +:+ exn_message e)))])].

Definition core (module : AnsibleModule) (environ : gmap string string) : M unit :=
  api_token ← core_api_token module environ;
  type ← getkeyordie module "type";
  data ← lift (params module "data");
  name ← lift (params module "name");
  priority ← lift (params module "priority");
  port ← lift (params module "port");
  weight ← lift (params module "weight");
  domain ← lift (params module "domain");
  state ← lift (params module "state");
  domain_name ← getkeyordie module "domain";
  Domain_setup api_token;;
  (if negb (truthy domain)
   then fail_json [("msg", JVal (PyStr ("Domain not found " +:+ py_str domain_name)))]
   else mret tt);;
  record ← DomainRecord_find_record domain_name type data name priority port weight;
  lift (py_in state "present" &&& Ok (negb (found_truthy record))) ≫= λ wanted : bool,
  (if wanted then
     created ← DomainRecord_add domain_name type data name priority port weight;
     j ← lift (to_json (Instance created));
     exit_json [("changed", JVal (PyBool true)); ("record", JObj j)]
   else
     lift (py_in state "absent" &&& Ok (found_truthy record)) ≫= λ unwanted : bool,
     if unwanted then
       id ← lift (found_getattr record "id");
       json ← DomainRecord_destroy domain_name id;
       exit_json [("changed", JVal (PyBool true)); ("event", json)]
     else mret tt);;
  j ← lift (to_json record);
  exit_json [("changed", JVal (PyBool false)); ("record", JObj j)].

(** *** main *)

(** [e.id] in the [except TimeoutError] clause. *)
Definition exn_id (e : exn) : outcome pyval :=
  match e with
  | TimeoutError _ id => Ok id
  | _ => Raise (AttributeError "exception object has no attribute 'id'")
  end.

(** [main] once [AnsibleModule(argument_spec=...)] has built [module]. *)
Definition main (module : AnsibleModule) (environ : gmap string string) : M unit :=
  try_except (core module environ)
    [(isinstance_TimeoutError,
      λ e, id ← lift (exn_id e);
           fail_json [("msg", JVal (PyStr (exn_str e))); ("id", JVal id)]);
     (λ e, isinstance_DoError e || isinstance_Exception e,
      λ e, fail_json [("msg", JVal (PyStr (exn_str e)))])].

(** A fresh process: no manager set, nothing sent yet. *)
Definition start (w : world api) : state :=
  {| Domain_manager := None; DomainRecord_manager := None; calls := []; remote := w |}.

End Module.

Arguments state : clear implicits.
Arguments M : clear implicits.

(** ** A sample client: an in-memory record store *)

(** The store holds the records of one domain, oldest first; a new record
    gets the next free identifier and echoes the declared fields. *)
Definition memory_new (w : list (gmap string pyval))
    (type data name priority port weight : pyval) : gmap string pyval :=
  list_to_map
    [("id", PyInt (Z.of_nat (length w) + 1)); ("type", type); ("data", data);
     ("name", name); ("priority", priority); ("port", port); ("weight", weight)].

Definition memory_api : Dopy := {|
  world := list (gmap string pyval);
  all_domain_records := λ _ _ w, (Ok w, w);
  new_domain_record := λ _ _ type data name priority port weight w,
    let r := memory_new w type data name priority port weight in
    (Ok r, w ++ [r]);
  destroy_domain_record := λ _ _ id w,
    (Ok (JVal (PyBool true)),
     filter (λ r, bool_decide (r !! "id" ≠ Some id)) w) |}.

(** Scenario 6 of the specification. *)
Definition www_request (st : string) : AnsibleModule := {|
  param_state := st;
  param_api_token := Some "secret";
  param_domain := Some "example.com";
  param_type := Some "A";
  param_name := Some "www";
  param_data := Some "127.0.0.1";
  param_priority := None;
  param_port := None;
  param_weight := None |}.

Definition www_record : gmap string pyval :=
  memory_new [] (PyStr "A") (PyStr "127.0.0.1") (PyStr "www") PyNone PyNone PyNone.

(** ** Reading the provider's records *)

(** Member [k] of the JSON object [j] is there and [==] to [v]. *)
Definition field_equal (j : gmap string pyval) (k : string) (v : pyval) : bool :=
  match j !! k with Some x => py_eq x v | None => false end.

(** The tuple (type, data, name, priority, port, weight) of [j] equals the
    request's, field by field. *)
Definition same_tuple (j : gmap string pyval)
    (type data name priority port weight : pyval) : bool :=
  field_equal j "type" type && field_equal j "data" data &&
  field_equal j "name" name && field_equal j "priority" priority &&
  field_equal j "port" port && field_equal j "weight" weight.

(** [j] carries the six compared members. *)
Definition comparable (j : gmap string pyval) : bool :=
  forallb (λ k, bool_decide (is_Some (j !! k)))
    ["type"; "data"; "name"; "priority"; "port"; "weight"].

(** [j] follows the provider's record schema: the compared members and the
    identifier are there, and no member hides the [to_json] method. *)
Definition provider_record (j : gmap string pyval) : bool :=
  comparable j && bool_decide (is_Some (j !! "id")) &&
  bool_decide (j !! "to_json" = None).


(** ** Properties of a run *)

(** The requests of one run, in the order sent: nothing; or the record list
    alone; or the record list followed by one create or delete. *)
Definition read_before_write (l : list call) : bool :=
  match l with
  | [] => true
  | [ListRecords _] => true
  | [ListRecords _; c] => mutating c
  | _ => false
  end.

(** An environment lookup that supplies no non-empty value: the variable
    is not set, or set to the empty string. *)
Definition supplies_nothing (v : option string) : bool :=
  match v with
  | None | Some EmptyString => true
  | Some _ => false
  end.

(** No credential resolves to a non-empty token: [api_token] is unset and
    neither environment variable supplies a non-empty value. *)
Definition credential_missing (module : AnsibleModule)
    (environ : gmap string string) : bool :=
  match param_api_token module with None => true | Some _ => false end &&
  supplies_nothing (environ !! "DO_API_TOKEN") &&
  supplies_nothing (environ !! "DO_API_KEY").

(** The run ends in a failure result and has sent nothing. *)
Definition fails_before_network (api : Dopy) (module : AnsibleModule)
    (environ : gmap string string) (w : world api) : Prop :=
  ∃ kw, (main api module environ (start api w)).1 = Raise (SystemExit 1 kw) ∧
        calls api (main api module environ (start api w)).2 = [].

(** The failure envelope [main] builds for an exception [e]. *)
Definition failure_envelope (e : exn) : kwargs :=
  ("msg", JVal (PyStr (exn_str e))) ::
  match e with
  | TimeoutError _ id => [("id", JVal id)]
  | _ => []
  end.

(** The record [j] carries the tuple the request declares. *)
Definition declared (module : AnsibleModule) (j : gmap string pyval) : bool :=
  same_tuple j (opt_str (param_type module)) (opt_str (param_data module))
    (opt_str (param_name module)) (opt_int (param_priority module))
    (opt_int (param_port module)) (opt_int (param_weight module)).

(** The create request for what [module] declares. *)
Definition create_call (module : AnsibleModule) : call :=
  CreateRecord (opt_str (param_domain module)) (opt_str (param_type module))
    (opt_str (param_data module)) (opt_str (param_name module))
    (opt_int (param_priority module)) (opt_int (param_port module))
    (opt_int (param_weight module)).

(** The state a run leaves once [Domain.setup] has stored the manager for
    [token]: the requests [l] were sent and the store is [w']. *)
Definition after (api : Dopy) (token : pyval) (l : list call) (w' : world api)
    : state api :=
  {| Domain_manager := Some (manager_for token);
     DomainRecord_manager := Some (manager_for token);
     calls := l;
     remote := w' |}.

(** [wp c Q s]: running [c] from [s] ends in an outcome and a state that
    satisfy [Q]. Every [c] is a total function, so every run ends. *)
Definition wp {api : Dopy} {A} (c : M api A)
    (Q : outcome A → state api → Prop) (s : state api) : Prop :=
  Q (c s).1 (c s).2.

(** A request with [api_token] unset, for the credential fallbacks. *)
Definition www_request_no_token : AnsibleModule := {|
  param_state := "present";
  param_api_token := None;
  param_domain := Some "example.com";
  param_type := Some "A";
  param_name := Some "www";
  param_data := Some "127.0.0.1";
  param_priority := None;
  param_port := None;
  param_weight := None |}.

(** Scenario 6 with [data] left out. *)
Definition www_request_no_data : AnsibleModule := {|
  param_state := "present";
  param_api_token := Some "secret";
  param_domain := Some "example.com";
  param_type := Some "A";
  param_name := Some "www";
  param_data := None;
  param_priority := None;
  param_port := None;
  param_weight := None |}.

(** Both fallback variables set, to the empty string. *)
Definition empty_variables : gmap string string :=
  <["DO_API_TOKEN" := EmptyString]> (<["DO_API_KEY" := EmptyString]> ∅).

(** Only the second fallback variable set. *)
Definition key_only : gmap string string := {["DO_API_KEY" := "secret"]}.


(** ** Further definitions: the rest of the classes, and sample inputs *)

(** [update_attr], the same function object as [__init__], on an
    instance that already has attributes: [self.__dict__.update(json)]
    stores every member of [json], replacing the attributes of the same
    name and keeping the others. *)
Definition DomainRecord_update_attr (self : DomainRecord)
    (json : gmap string pyval) : DomainRecord :=
  {| __dict__ := json ∪ __dict__ self |}.

(** [module] with another value for [api_token]. *)
Definition with_api_token (module : AnsibleModule) (t : option string)
    : AnsibleModule := {|
  param_state := param_state module;
  param_api_token := t;
  param_domain := param_domain module;
  param_type := param_type module;
  param_name := param_name module;
  param_data := param_data module;
  param_priority := param_priority module;
  param_port := param_port module;
  param_weight := param_weight module |}.

(** The members [find_record] compares, in the order of its [and] chain,
    each with the request value it is compared to. *)
Definition compared (type data name priority port weight : pyval)
    : list (string * pyval) :=
  [("type", type); ("data", data); ("name", name); ("priority", priority);
   ("port", port); ("weight", weight)].

(** The comparisons of [find_record]'s test, one member after the other:
    a member that is not there raises, a member that differs ends the test
    with [False], and only equal members lead on to the next one. *)
Fixpoint compare_in_order (record : DomainRecord) (fields : list (string * pyval))
    : outcome bool :=
  match fields with
  | [] => Ok true
  | (k, v) :: rest =>
      getattr record k ≫= λ x : pyval,
      if py_eq x v then compare_in_order record rest else Ok false
  end.

Definition is_create (c : call) : bool :=
  match c with CreateRecord _ _ _ _ _ _ _ => true | _ => false end.

Definition is_delete (c : call) : bool :=
  match c with DeleteRecord _ _ => true | _ => false end.

(** What the client raises is an [Exception]: dopy and the libraries below
    it never raise [SystemExit]. *)
Definition raises_only_exceptions (api : Dopy) : Prop :=
  (∀ m d w e w',
     all_domain_records api m d w = (Raise e, w') →
     isinstance_Exception e = true) ∧
  (∀ m d ty da na pr po we w e w',
     new_domain_record api m d ty da na pr po we w = (Raise e, w') →
     isinstance_Exception e = true) ∧
  (∀ m d i w e w',
     destroy_domain_record api m d i w = (Raise e, w') →
     isinstance_Exception e = true).

(** The three ways a run ends with success status: a record was created,
    a record was deleted, or the record found was left as it is. *)
Inductive success : kwargs → list call → Prop :=
| Created created d ty da na pr po we :
    success [("changed", JVal (PyBool true)); ("record", JObj created)]
            [ListRecords d; CreateRecord d ty da na pr po we]
| Deleted ack d id :
    success [("changed", JVal (PyBool true)); ("event", ack)]
            [ListRecords d; DeleteRecord d id]
| Kept j d :
    success [("changed", JVal (PyBool false)); ("record", JObj j)]
            [ListRecords d].

(** A client that answers every request the same way, whatever is asked. *)
Definition scripted_api (listed : outcome (list (gmap string pyval)))
    (created : outcome (gmap string pyval)) (destroyed : outcome json) : Dopy := {|
  world := unit;
  all_domain_records := λ _ _ w, (listed, w);
  new_domain_record := λ _ _ _ _ _ _ _ _ w, (created, w);
  destroy_domain_record := λ _ _ _ w, (destroyed, w) |}.

(** Scenario 6 with another value for [domain]. *)
Definition www_request_in (domain : option string) : AnsibleModule := {|
  param_state := "present";
  param_api_token := Some "secret";
  param_domain := domain;
  param_type := Some "A";
  param_name := Some "www";
  param_data := Some "127.0.0.1";
  param_priority := None;
  param_port := None;
  param_weight := None |}.

(** A client the provider turns away at the first request. *)
Definition rejected_api : Dopy :=
  scripted_api (Raise (DoError "Unable to authenticate you."))
    (Raise (DoError "Unable to authenticate you."))
    (Raise (DoError "Unable to authenticate you.")).

(** A client for an empty domain whose create request is refused. *)
Definition refusing_api : Dopy :=
  scripted_api (Ok []) (Raise (DoError "Name is invalid"))
    (Raise (DoError "Record not found")).

(** A complete record that scenario 6 does not match. *)
Definition mail_record : gmap string pyval :=
  memory_new [] (PyStr "MX") (PyStr "mail.example.com") (PyStr "@")
    (PyInt 10) PyNone PyNone.

(** A record of another type that lacks every other member. *)
Definition bare_mx_record : gmap string pyval := {["type" := PyStr "MX"]}.

(** A record that matches scenario 6 but carries no identifier. *)
Definition www_record_no_id : gmap string pyval := delete "id" www_record.

(** The environment variable whose lookup raises when no token is found:
    DO_API_TOKEN is read first, DO_API_KEY only after it. *)
Definition unset_variable (environ : gmap string string) : string :=
  match environ !! "DO_API_TOKEN" with
  | None => "DO_API_TOKEN"
  | Some _ => "DO_API_KEY"
  end.

(** The first fallback variable set to the empty string, the second not
    set. *)
Definition empty_token_only : gmap string string :=
  {["DO_API_TOKEN" := EmptyString]}.


(** A second record with the tuple of scenario 6, under identifier 2. *)
Definition www_record_again : gmap string pyval :=
  memory_new [www_record] (PyStr "A") (PyStr "127.0.0.1") (PyStr "www")
    PyNone PyNone PyNone.

(** The names the module reads from instances of [DomainRecord]. *)
Definition instance_attributes : list string :=
  ["type"; "data"; "name"; "priority"; "port"; "weight"; "id"].

(** ** Reasoning about runs *)

Section Logic.

Context {api : Dopy}.

Lemma wp_intro {A} (c : M api A) (Q : outcome A → state api → Prop) s :
  wp c Q s → Q (c s).1 (c s).2.
Proof. exact id. Qed.

Lemma wp_run {A} (c : M api A) o s s' :
  wp c (λ o' t, o' = o ∧ t = s') s → c s = (o, s').
Proof. unfold wp. destruct (c s); cbn. by intros [-> ->]. Qed.

Lemma wp_ret {A} (a : A) (Q : outcome A → state api → Prop) s :
  Q (Ok a) s → wp (mret a) Q s.
Proof. exact id. Qed.

Lemma wp_raise {A} e (Q : outcome A → state api → Prop) s :
  Q (Raise e) s → wp (raise api e) Q s.
Proof. exact id. Qed.

Lemma wp_exit_json {A} kw (Q : outcome A → state api → Prop) s :
  Q (Raise (SystemExit 0 kw)) s → wp (exit_json api kw) Q s.
Proof. exact id. Qed.

Lemma wp_fail_json {A} kw (Q : outcome A → state api → Prop) s :
  Q (Raise (SystemExit 1 kw)) s → wp (fail_json api kw) Q s.
Proof. exact id. Qed.

Lemma wp_lift {A} (o : outcome A) (Q : outcome A → state api → Prop) s :
  Q o s → wp (lift api o) Q s.
Proof. exact id. Qed.

Lemma wp_bind {A B} (c : M api A) (k : A → M api B)
    (Q : outcome B → state api → Prop) s :
  wp c (λ o s', match o with
                | Ok a => wp (k a) Q s'
                | Raise e => Q (Raise e) s'
                end) s →
  wp (c ≫= k) Q s.
Proof. unfold wp, mbind, M_bind. by destruct (c s) as [[a|e] s']. Qed.

Lemma wp_try_except {A} (body : M api A) clauses
    (Q : outcome A → state api → Prop) s :
  wp body (λ o s', match o with
                   | Ok a => Q (Ok a) s'
                   | Raise e => wp (handle api clauses e) Q s'
                   end) s →
  wp (try_except api body clauses) Q s.
Proof. unfold wp, try_except. by destruct (body s) as [[a|e] s']. Qed.

Lemma wp_request {A} c (send : world api → outcome A * world api)
    (Q : outcome A → state api → Prop) s :
  Q (send (remote api s)).1
    {| Domain_manager := Domain_manager api s;
       DomainRecord_manager := DomainRecord_manager api s;
       calls := calls api s ++ [c];
       remote := (send (remote api s)).2 |} →
  wp (request api c send) Q s.
Proof. unfold wp, request. by destruct (send (remote api s)). Qed.

Lemma wp_cls_manager attr method (Q : outcome DoManager → state api → Prop) s :
  match attr s with
  | Some manager => Q (Ok manager) s
  | None =>
      Q (Raise (AttributeError
                  ("'NoneType' object has no attribute '" +:+ method +:+ "'"))) s
  end →
  wp (cls_manager api attr method) Q s.
Proof. unfold wp, cls_manager. by destruct (attr s). Qed.

Lemma wp_Domain_setup api_token (Q : outcome unit → state api → Prop) s :
  Q (Ok tt) {| Domain_manager := Some (manager_for api_token);
               DomainRecord_manager := Some (manager_for api_token);
               calls := calls api s;
               remote := remote api s |} →
  wp (Domain_setup api api_token) Q s.
Proof. exact id. Qed.

End Logic.

(** One syntax-directed step of a run. *)
Ltac wp_step :=
  lazymatch goal with
  | |- wp (mbind _ _) _ _ => apply wp_bind
  | |- wp (mret _) _ _ => apply wp_ret
  | |- wp (lift _ _) _ _ => apply wp_lift
  | |- wp (raise _ _) _ _ => apply wp_raise
  | |- wp (exit_json _ _) _ _ => apply wp_exit_json
  | |- wp (fail_json _ _) _ _ => apply wp_fail_json
  | |- wp (try_except _ _ _) _ _ => apply wp_try_except
  | |- wp (request _ _ _) _ _ => apply wp_request
  | |- wp (cls_manager _ _ _) _ _ => apply wp_cls_manager
  | |- wp (Domain_setup _ _) _ _ => apply wp_Domain_setup
  | |- wp (match decide ?P with left _ => _ | right _ => _ end) _ _ =>
      destruct (decide P); [try discriminate | try congruence]
  | |- wp (core_api_token _ _ _) _ _ => unfold core_api_token
  | |- wp (getkeyordie _ _ _) _ _ => unfold getkeyordie
  | |- wp (DomainRecord_find_record _ _ _ _ _ _ _ _) _ _ => unfold DomainRecord_find_record
  | |- wp (DomainRecord_list_all _ _) _ _ => unfold DomainRecord_list_all
  | |- wp (DomainRecord_add _ _ _ _ _ _ _ _) _ _ => unfold DomainRecord_add
  | |- wp (DomainRecord_destroy _ _ _) _ _ => unfold DomainRecord_destroy
  | |- wp (handle _ _ _) _ _ => cbn [handle]
  | |- wp (core _ _ _) _ _ => unfold core
  | |- wp (main _ _ _) _ _ => unfold main
  end.

(** [module.params[k]] at the keys [core] reads. *)
Lemma params_at (module : AnsibleModule) :
  params module "state" = Ok (PyStr (param_state module)) ∧
  params module "api_token" = Ok (opt_str (param_api_token module)) ∧
  params module "domain" = Ok (opt_str (param_domain module)) ∧
  params module "type" = Ok (opt_str (param_type module)) ∧
  params module "name" = Ok (opt_str (param_name module)) ∧
  params module "data" = Ok (opt_str (param_data module)) ∧
  params module "priority" = Ok (opt_int (param_priority module)) ∧
  params module "port" = Ok (opt_int (param_port module)) ∧
  params module "weight" = Ok (opt_int (param_weight module)).
Proof. repeat split. Qed.

Lemma truthy_str (s : string) : s ≠ EmptyString → truthy (PyStr s) = true.
Proof. by destruct s. Qed.

Lemma present_in_present : str_in "present" "present" = true.
Proof. reflexivity. Qed.

Lemma present_in_absent : str_in "present" "absent" = false.
Proof. reflexivity. Qed.

Lemma absent_in_present : str_in "absent" "present" = false.
Proof. reflexivity. Qed.

Lemma absent_in_absent : str_in "absent" "absent" = true.
Proof. reflexivity. Qed.

Ltac wp_params module :=
  let E1 := fresh in let E2 := fresh in let E3 := fresh in
  let E4 := fresh in let E5 := fresh in let E6 := fresh in
  let E7 := fresh in let E8 := fresh in let E9 := fresh in
  destruct (params_at module) as (E1 & E2 & E3 & E4 & E5 & E6 & E7 & E8 & E9);
  rewrite ?E1, ?E2, ?E3, ?E4, ?E5, ?E6, ?E7, ?E8, ?E9;
  clear E1 E2 E3 E4 E5 E6 E7 E8 E9.

Ltac wp_simpl :=
  cbn [start remote calls Domain_manager DomainRecord_manager fst snd app
       py_and py_in mbind outcome_bind found_truthy negb andb orb
       isinstance_TimeoutError isinstance_DoError isinstance_Exception
       isinstance_KeyError handle exn_message exn_str exn_id];
  rewrite ?present_in_present, ?present_in_absent,
    ?absent_in_present, ?absent_in_absent;
  cbv beta iota.

Ltac wp_steps := wp_simpl; repeat (wp_step; wp_simpl).

(** ** The lookup loop *)

Section Lookup.
Context (type data name priority port weight : pyval).

Lemma comparable_lookup j k :
  comparable j = true →
  k ∈ ["type"; "data"; "name"; "priority"; "port"; "weight"] →
  is_Some (j !! k).
Proof.
  unfold comparable. rewrite forallb_forall. intros H Hk.
  apply list_elem_of_In, H in Hk. by apply bool_decide_eq_true in Hk.
Qed.

Lemma record_matches_same j :
  comparable j = true →
  record_matches (Build_DomainRecord j) type data name priority port weight
  = Ok (same_tuple j type data name priority port weight).
Proof.
  intros H.
  destruct (comparable_lookup j "type" H) as [v1 E1]; [set_solver|].
  destruct (comparable_lookup j "data" H) as [v2 E2]; [set_solver|].
  destruct (comparable_lookup j "name" H) as [v3 E3]; [set_solver|].
  destruct (comparable_lookup j "priority" H) as [v4 E4]; [set_solver|].
  destruct (comparable_lookup j "port" H) as [v5 E5]; [set_solver|].
  destruct (comparable_lookup j "weight" H) as [v6 E6]; [set_solver|].
  unfold record_matches, same_tuple, field_equal, getattr, py_and; cbn.
  rewrite E1, E2, E3, E4, E5, E6; cbn.
  destruct (py_eq v1 type), (py_eq v2 data), (py_eq v3 name),
    (py_eq v4 priority), (py_eq v5 port), (py_eq v6 weight); reflexivity.
Qed.

(** The loop returns what a search for the first equal tuple returns. *)
Lemma find_in_find rs :
  forallb comparable rs = true →
  find_in (map Build_DomainRecord rs) type data name priority port weight
  = Ok (match List.find (λ j, same_tuple j type data name priority port weight) rs with
        | Some j => Instance (Build_DomainRecord j)
        | None => PyFalse
        end).
Proof.
  induction rs as [|j rs IH]; intros Hrs; [reflexivity|].
  apply andb_true_iff in Hrs as [Hj Hrs].
  cbn [map find_in List.find]. rewrite record_matches_same by exact Hj. cbn.
  destruct (same_tuple j type data name priority port weight); [reflexivity|].
  apply IH, Hrs.
Qed.

Lemma find_tuple_first pre j post :
  forallb (λ x, negb (same_tuple x type data name priority port weight)) pre = true →
  same_tuple j type data name priority port weight = true →
  List.find (λ x, same_tuple x type data name priority port weight) (pre ++ j :: post)
  = Some j.
Proof.
  induction pre as [|x pre IH]; cbn; intros Hpre Hj.
  - by rewrite Hj.
  - apply andb_true_iff in Hpre as [Hx Hpre].
    apply negb_true_iff in Hx. rewrite Hx. by apply IH.
Qed.

Lemma find_tuple_none rs :
  forallb (λ x, negb (same_tuple x type data name priority port weight)) rs = true →
  List.find (λ x, same_tuple x type data name priority port weight) rs = None.
Proof.
  induction rs as [|x rs IH]; cbn; intros Hrs; [reflexivity|].
  apply andb_true_iff in Hrs as [Hx Hrs].
  apply negb_true_iff in Hx. rewrite Hx. by apply IH.
Qed.

Lemma find_tuple_split rs j :
  List.find (λ x, same_tuple x type data name priority port weight) rs = Some j →
  ∃ pre post, rs = pre ++ j :: post ∧
    forallb (λ x, negb (same_tuple x type data name priority port weight)) pre = true ∧
    same_tuple j type data name priority port weight = true.
Proof.
  induction rs as [|x rs IH]; cbn; [discriminate|].
  destruct (same_tuple x type data name priority port weight) eqn:Hx.
  - intros [= ->]. by exists [], rs.
  - intros Hj. destruct (IH Hj) as (pre & post & -> & Hpre & Hsame).
    exists (x :: pre), post. cbn. by rewrite Hx.
Qed.

End Lookup.


(** ** What the schema gives *)

Lemma provider_record_parts j :
  provider_record j = true →
  comparable j = true ∧ is_Some (j !! "id") ∧ j !! "to_json" = None.
Proof.
  unfold provider_record. rewrite !andb_true_iff, !bool_decide_eq_true.
  by intros [[? ?] ?].
Qed.

Lemma provider_records_comparable rs :
  forallb provider_record rs = true → forallb comparable rs = true.
Proof.
  rewrite !forallb_forall. intros H j Hj.
  by destruct (provider_record_parts j (H j Hj)).
Qed.

Lemma found_provider_record (f : gmap string pyval → bool) rs j :
  forallb provider_record rs = true → List.find f rs = Some j →
  provider_record j = true.
Proof.
  rewrite forallb_forall. intros H Hj. apply H.
  by destruct (find_some _ _ Hj).
Qed.

(** ** The four rows of the decision table *)

Section Reconcile.

Context (api : Dopy) (module : AnsibleModule) (environ : gmap string string).
Context (w : world api) (token : pyval) (ty d : string).

Hypothesis Htoken : resolve_token module environ = Ok token.
Hypothesis Htype : param_type module = Some ty.
Hypothesis Hdomain : param_domain module = Some d.
Hypothesis Hnonempty : d ≠ EmptyString.

Local Abbreviation data := (opt_str (param_data module)).
Local Abbreviation name := (opt_str (param_name module)).
Local Abbreviation priority := (opt_int (param_priority module)).
Local Abbreviation port := (opt_int (param_port module)).
Local Abbreviation weight := (opt_int (param_weight module)).
Local Abbreviation manager := (manager_for token).

(** Up to the answer of the record list. *)
Ltac to_lookup Hstate Hlist :=
  apply wp_run; unfold main, core, core_api_token, getkeyordie;
  wp_params module; rewrite Htoken, Htype, Hdomain, Hstate; cbn [opt_str];
  wp_steps; rewrite (truthy_str d Hnonempty); wp_steps;
  rewrite Hlist; wp_steps.

Lemma run_create rs w1 created w2 :
  param_state module = "present" →
  all_domain_records api manager (PyStr d) w = (Ok rs, w1) →
  find_in (map Build_DomainRecord rs) (PyStr ty) data name priority port weight
  = Ok PyFalse →
  new_domain_record api manager (PyStr d) (PyStr ty) data name priority port weight w1
  = (Ok created, w2) →
  created !! "to_json" = None →
  main api module environ (start api w) =
  (Raise (SystemExit 0 [("changed", JVal (PyBool true)); ("record", JObj created)]),
   after api token [ListRecords (PyStr d);
          CreateRecord (PyStr d) (PyStr ty) data name priority port weight] w2).
Proof.
  intros Hstate Hlist Hfind Hnew Hplain. to_lookup Hstate Hlist.
  rewrite Hfind. wp_steps. rewrite Hnew. wp_steps.
  cbn [to_json __dict__]. rewrite Hplain. by wp_steps.
Qed.

Lemma run_keep rs w1 j :
  param_state module = "present" →
  all_domain_records api manager (PyStr d) w = (Ok rs, w1) →
  find_in (map Build_DomainRecord rs) (PyStr ty) data name priority port weight
  = Ok (Instance (Build_DomainRecord j)) →
  j !! "to_json" = None →
  main api module environ (start api w) =
  (Raise (SystemExit 0 [("changed", JVal (PyBool false)); ("record", JObj j)]),
   after api token [ListRecords (PyStr d)] w1).
Proof.
  intros Hstate Hlist Hfind Hplain. to_lookup Hstate Hlist.
  rewrite Hfind. wp_steps.
  cbn [to_json __dict__]. rewrite Hplain. by wp_steps.
Qed.

Lemma run_delete rs w1 j id ack w2 :
  param_state module = "absent" →
  all_domain_records api manager (PyStr d) w = (Ok rs, w1) →
  find_in (map Build_DomainRecord rs) (PyStr ty) data name priority port weight
  = Ok (Instance (Build_DomainRecord j)) →
  j !! "id" = Some id →
  destroy_domain_record api manager (PyStr d) id w1 = (Ok ack, w2) →
  main api module environ (start api w) =
  (Raise (SystemExit 0 [("changed", JVal (PyBool true)); ("event", ack)]),
   after api token [ListRecords (PyStr d); DeleteRecord (PyStr d) id] w2).
Proof.
  intros Hstate Hlist Hfind Hid Hdel. to_lookup Hstate Hlist.
  rewrite Hfind. wp_steps.
  cbn [found_getattr]. unfold getattr. cbn [__dict__]. rewrite Hid. wp_steps.
  rewrite Hdel. by wp_steps.
Qed.

Lemma run_absent_nothing rs w1 :
  param_state module = "absent" →
  all_domain_records api manager (PyStr d) w = (Ok rs, w1) →
  find_in (map Build_DomainRecord rs) (PyStr ty) data name priority port weight
  = Ok PyFalse →
  main api module environ (start api w) =
  (Raise (SystemExit 1
            [("msg", JVal (PyStr "'bool' object has no attribute 'to_json'"))]),
   after api token [ListRecords (PyStr d)] w1).
Proof.
  intros Hstate Hlist Hfind. to_lookup Hstate Hlist.
  rewrite Hfind. wp_steps. cbn [to_json]. by wp_steps.
Qed.

End Reconcile.

(** ** Every branch of a run *)

(** Step where the program text decides; split on what the inputs and the
    client decide. *)
Ltac wp_split :=
  lazymatch goal with
  | |- wp (if ?b then _ else _) _ _ => destruct b eqn:?
  | |- match ?x with _ => _ end => destruct x eqn:?
  | |- if ?b then _ else _ => destruct b eqn:?
  end.

Ltac wp_all := wp_simpl; repeat (first [wp_step | wp_split]; wp_simpl).

Lemma find_in_declared module ty rs :
  param_type module = Some ty →
  forallb comparable rs = true →
  find_in (map Build_DomainRecord rs) (PyStr ty) (opt_str (param_data module))
    (opt_str (param_name module)) (opt_int (param_priority module))
    (opt_int (param_port module)) (opt_int (param_weight module))
  = Ok (match List.find (declared module) rs with
        | Some j => Instance (Build_DomainRecord j)
        | None => PyFalse
        end).
Proof.
  intros Hty Hrs. rewrite find_in_find by exact Hrs.
  unfold declared. by rewrite Hty.
Qed.

(** ** Scenarios 6 to 8 of the specification, on the sample client *)

Example scenario_6 :
  main memory_api (www_request "present") ∅ (start memory_api []) =
  (Raise (SystemExit 0 [("changed", JVal (PyBool true)); ("record", JObj www_record)]),
   after memory_api (PyStr "secret")
     [ListRecords (PyStr "example.com"); create_call (www_request "present")]
     [www_record]).
Proof. reflexivity. Qed.

Example scenario_7 :
  main memory_api (www_request "present") ∅ (start memory_api [www_record]) =
  (Raise (SystemExit 0 [("changed", JVal (PyBool false)); ("record", JObj www_record)]),
   after memory_api (PyStr "secret") [ListRecords (PyStr "example.com")] [www_record]).
Proof. reflexivity. Qed.

Example scenario_8 :
  main memory_api (www_request "absent") ∅ (start memory_api [www_record]) =
  (Raise (SystemExit 0 [("changed", JVal (PyBool true)); ("event", JVal (PyBool true))]),
   after memory_api (PyStr "secret")
     [ListRecords (PyStr "example.com"); DeleteRecord (PyStr "example.com") (PyInt 1)]
     []).
Proof. reflexivity. Qed.

(** ** Nothing to delete *)

(** C1, as the code runs it. The request asks for [state=absent] and the
    domain has no record at all, so none matches. The record list is the
    only request sent, but the run does not succeed with [changed=false]:
    the closing [record.to_json()] is evaluated on the [False] that
    [find_record] returned, raises [AttributeError], and [main] reports the
    failure "'bool' object has no attribute 'to_json'". *)
Theorem absent_without_match_fails :
  List.find (declared (www_request "absent")) [] = None ∧
  main memory_api (www_request "absent") ∅ (start memory_api []) =
  (Raise (SystemExit 1
            [("msg", JVal (PyStr "'bool' object has no attribute 'to_json'"))]),
   after memory_api (PyStr "secret") [ListRecords (PyStr "example.com")] []).
Proof. split; reflexivity. Qed.

(** ** Credentials *)

Lemma resolve_token_unset module environ :
  param_api_token module = None →
  environ !! "DO_API_TOKEN" = None →
  resolve_token module environ = Raise (KeyError "DO_API_TOKEN").
Proof.
  intros Hp He. unfold resolve_token, os_environ.
  destruct (params_at module) as (_ & -> & _). by rewrite Hp, He.
Qed.

Lemma resolve_token_empty_unset module environ :
  param_api_token module = None →
  environ !! "DO_API_TOKEN" = Some EmptyString →
  environ !! "DO_API_KEY" = None →
  resolve_token module environ = Raise (KeyError "DO_API_KEY").
Proof.
  intros Hp He Hk. unfold resolve_token, os_environ.
  destruct (params_at module) as (_ & -> & _). by rewrite Hp, He, Hk.
Qed.

Lemma run_missing_variable api module environ (w : world api) var :
  resolve_token module environ = Raise (KeyError var) →
  main api module environ (start api w) =
  (Raise (SystemExit 1 [("msg", JVal (PyStr ("Unable to load " +:+ var)))]),
   start api w).
Proof.
  intros Htoken. apply wp_run. unfold main, core, core_api_token.
  rewrite Htoken. by wp_steps.
Qed.

Lemma resolve_token_raises module environ e :
  resolve_token module environ = Raise e → isinstance_KeyError e = true.
Proof.
  unfold resolve_token, os_environ.
  destruct (params_at module) as (_ & -> & _). cbn [mbind outcome_bind].
  destruct (truthy (opt_str (param_api_token module))); [done|].
  destruct (environ !! "DO_API_TOKEN") as [[|c t]|]; cbn;
    [|done|by intros [= <-]].
  destruct (environ !! "DO_API_KEY"); [done|by intros [= <-]].
Qed.

(** C2, where the claim fails. [api_token] is unset and both environment
    variables are set to the empty string, so no credential resolves to a
    non-empty token; the token expression yields the empty string without
    raising, and the run goes on to ask the provider for the record
    list. *)
Lemma empty_variables_reach_provider :
  ¬ (∀ (api : Dopy) module environ (w : world api),
       credential_missing module environ = true →
       fails_before_network api module environ w).
Proof.
  intros H.
  assert (credential_missing www_request_no_token empty_variables = true)
    as Hmissing by reflexivity.
  destruct (H memory_api www_request_no_token empty_variables [] Hmissing)
    as (kw & _ & Hcalls).
  discriminate Hcalls.
Qed.

(** C2, amended. When no credential resolves to a non-empty token
    ([api_token] is unset and neither environment variable supplies a
    non-empty value) and at least one of the two variables is not set, the
    run ends in a failure with nothing sent and the state untouched,
    whatever the other parameters are; the message is "Unable to load
    DO_API_TOKEN" when DO_API_TOKEN is not set and "Unable to load
    DO_API_KEY" otherwise. *)
Theorem missing_variable_fails_before_network (api : Dopy) module environ
    (w : world api) :
  credential_missing module environ = true →
  environ !! "DO_API_TOKEN" = None ∨ environ !! "DO_API_KEY" = None →
  fails_before_network api module environ w ∧
  main api module environ (start api w) =
  (Raise (SystemExit 1
            [("msg", JVal (PyStr ("Unable to load " +:+ unset_variable environ)))]),
   start api w).
Proof.
  unfold credential_missing, unset_variable. intros Hmissing Hunset.
  apply andb_true_iff in Hmissing as [Hmissing Hkey].
  apply andb_true_iff in Hmissing as [Hparam Htoken].
  assert (param_api_token module = None) as Hp
    by (by destruct (param_api_token module)).
  assert (resolve_token module environ
          = Raise (KeyError (unset_variable environ))) as Hvar.
  { unfold unset_variable.
    destruct (environ !! "DO_API_TOKEN") as [[|c t]|] eqn:Htok.
    - destruct Hunset as [?|Hk]; [done|]. by apply resolve_token_empty_unset.
    - discriminate Htoken.
    - by apply resolve_token_unset. }
  pose proof (run_missing_variable api module environ w _ Hvar) as Hrun.
  split; [|exact Hrun].
  unfold fails_before_network. rewrite Hrun. by eexists.
Qed.

Lemma missing_variable_fails_before_network_witness :
  (fails_before_network memory_api www_request_no_token ∅ [] ∧
   main memory_api www_request_no_token ∅ (start memory_api []) =
   (Raise (SystemExit 1 [("msg", JVal (PyStr "Unable to load DO_API_TOKEN"))]),
    start memory_api [])) ∧
  (fails_before_network memory_api www_request_no_token empty_token_only [] ∧
   main memory_api www_request_no_token empty_token_only (start memory_api []) =
   (Raise (SystemExit 1 [("msg", JVal (PyStr "Unable to load DO_API_KEY"))]),
    start memory_api [])).
Proof.
  split.
  - exact (missing_variable_fails_before_network memory_api www_request_no_token
             ∅ [] eq_refl (or_introl eq_refl)).
  - exact (missing_variable_fails_before_network memory_api www_request_no_token
             empty_token_only [] eq_refl (or_intror eq_refl)).
Defined.

(** C3, as the code runs it. [api_token] and DO_API_TOKEN are unset and
    DO_API_KEY holds a token. The token expression reads
    [os.environ['DO_API_TOKEN']] before DO_API_KEY is looked at; the lookup
    raises [KeyError], and the run fails with "Unable to load DO_API_TOKEN"
    instead of resolving to the DO_API_KEY value. *)
Theorem key_alone_is_not_used :
  key_only !! "DO_API_KEY" = Some "secret" ∧
  resolve_token www_request_no_token key_only = Raise (KeyError "DO_API_TOKEN") ∧
  main memory_api www_request_no_token key_only (start memory_api []) =
  (Raise (SystemExit 1 [("msg", JVal (PyStr "Unable to load DO_API_TOKEN"))]),
   start memory_api []).
Proof. repeat split. Qed.

(** ** The record lookup *)

Lemma field_equal_None (j : gmap string pyval) k :
  field_equal j k PyNone = true ↔ j !! k = Some PyNone.
Proof.
  unfold field_equal. destruct (j !! k) as [[| | |]|]; cbn; split; congruence.
Qed.

Lemma same_tuple_ignores_id (j : gmap string pyval) v type data name priority port weight :
  same_tuple (<["id" := v]> j) type data name priority port weight
  = same_tuple j type data name priority port weight.
Proof.
  unfold same_tuple, field_equal. by rewrite !lookup_insert_ne.
Qed.

Lemma find_record_run (api : Dopy) (s : state api) manager domain
    type data name priority port weight rs w1 :
  DomainRecord_manager api s = Some manager →
  all_domain_records api manager domain (remote api s) = (Ok rs, w1) →
  DomainRecord_find_record api domain type data name priority port weight s =
  (find_in (map Build_DomainRecord rs) type data name priority port weight,
   {| Domain_manager := Domain_manager api s;
      DomainRecord_manager := DomainRecord_manager api s;
      calls := calls api s ++ [ListRecords domain];
      remote := w1 |}).
Proof.
  intros Hmanager Hlist. apply wp_run. wp_steps.
  rewrite Hmanager. wp_steps. rewrite Hlist. wp_steps.
  split; [done | by rewrite Hmanager].
Qed.

(** C6. With the manager set and the provider answering the record list
    [rs], every record carrying the six compared members, [find_record]
    returns the first record of [rs], in list order, whose (type, data,
    name, priority, port, weight) members are [==] to the request's, and
    [False] when no record of [rs] is; a request field that is [None] is
    matched only by a member that is [None]; and the member [id] has no
    part in it. *)
Theorem find_record_first_match (api : Dopy) (s : state api) (manager : DoManager)
    (domain type data name priority port weight : pyval)
    (rs : list (gmap string pyval)) (w1 : world api) :
  DomainRecord_manager api s = Some manager →
  all_domain_records api manager domain (remote api s) = (Ok rs, w1) →
  forallb comparable rs = true →
  let result :=
    (DomainRecord_find_record api domain type data name priority port weight s).1 in
  let equal j := same_tuple j type data name priority port weight in
  (∀ pre j post,
     rs = pre ++ j :: post →
     forallb (λ x, negb (equal x)) pre = true → equal j = true →
     result = Ok (Instance (Build_DomainRecord j))) ∧
  (forallb (λ x, negb (equal x)) rs = true → result = Ok PyFalse) ∧
  (∃ r, result = Ok r ∧
        match r with
        | Instance record =>
            ∃ pre post, rs = pre ++ __dict__ record :: post ∧
              forallb (λ x, negb (equal x)) pre = true ∧
              equal (__dict__ record) = true
        | PyFalse => forallb (λ x, negb (equal x)) rs = true
        end) ∧
  (∀ j k, field_equal j k PyNone = true ↔ j !! k = Some PyNone) ∧
  (∀ j v, equal (<["id" := v]> j) = equal j).
Proof.
  intros Hmanager Hlist Hrs result equal. subst result.
  rewrite (find_record_run api s manager domain type data name priority port
             weight rs w1 Hmanager Hlist).
  cbn [fst]. rewrite find_in_find by exact Hrs. fold equal.
  repeat split.
  - intros pre j post -> Hpre Hj. unfold equal. by rewrite find_tuple_first.
  - intros Hnone. unfold equal. by rewrite find_tuple_none.
  - destruct (List.find equal rs) as [j|] eqn:Hfind.
    + exists (Instance (Build_DomainRecord j)). split; [reflexivity|].
      cbn [__dict__]. destruct (find_tuple_split _ _ _ _ _ _ rs j Hfind)
        as (pre & post & Heq & Hpre & Hj). by exists pre, post.
    + exists PyFalse. split; [reflexivity|].
      apply forallb_forall. intros x Hx.
      by rewrite (List.find_none _ _ Hfind x Hx).
  - apply field_equal_None.
  - apply field_equal_None.
  - intros j v. apply same_tuple_ignores_id.
Qed.

Lemma declared_www st : declared (www_request st) www_record = true.
Proof. reflexivity. Qed.

Lemma www_record_schema : forallb provider_record [www_record] = true.
Proof. reflexivity. Qed.

Lemma mail_then_www_schema :
  forallb comparable [mail_record; www_record; www_record_again] = true.
Proof. reflexivity. Qed.

Lemma find_record_first_match_witness :
  (DomainRecord_find_record memory_api (PyStr "example.com") (PyStr "A")
     (PyStr "127.0.0.1") (PyStr "www") PyNone PyNone PyNone
     (after memory_api (PyStr "secret") []
        [mail_record; www_record; www_record_again])).1
  = Ok (Instance (Build_DomainRecord www_record)) ∧
  (DomainRecord_find_record memory_api (PyStr "example.com") (PyStr "A")
     (PyStr "127.0.0.1") (PyStr "www") PyNone PyNone PyNone
     (after memory_api (PyStr "secret") [] [mail_record])).1
  = Ok PyFalse.
Proof.
  split.
  - apply (proj1 (find_record_first_match memory_api
                    (after memory_api (PyStr "secret") []
                       [mail_record; www_record; www_record_again])
                    (manager_for (PyStr "secret"))
                    (PyStr "example.com") (PyStr "A") (PyStr "127.0.0.1")
                    (PyStr "www") PyNone PyNone PyNone
                    [mail_record; www_record; www_record_again]
                    [mail_record; www_record; www_record_again]
                    eq_refl eq_refl mail_then_www_schema)
             [mail_record] www_record [www_record_again]);
      reflexivity.
  - apply (proj1 (proj2 (find_record_first_match memory_api
                           (after memory_api (PyStr "secret") [] [mail_record])
                           (manager_for (PyStr "secret"))
                           (PyStr "example.com") (PyStr "A") (PyStr "127.0.0.1")
                           (PyStr "www") PyNone PyNone PyNone
                           [mail_record] [mail_record]
                           eq_refl eq_refl eq_refl)));
      reflexivity.
Defined.

(** ** The decision table *)

(** C4. A run with [state=present] whose credential, type and domain
    resolve and whose record list is answered with records [rs] of the
    provider's schema: when no record of [rs] carries the declared tuple,
    the run sends the record list and then one create request with the
    declared fields and, the provider answering it with a record, exits
    with [changed=true] and that record; when a record does, the run sends
    the record list alone and exits with [changed=false] and the first
    such record. *)
Theorem present_creates_or_keeps (api : Dopy) (module : AnsibleModule)
    (environ : gmap string string) (w w1 : world api) (token : pyval)
    (ty d : string) (rs : list (gmap string pyval)) :
  param_state module = "present" →
  resolve_token module environ = Ok token →
  param_type module = Some ty →
  param_domain module = Some d → d ≠ EmptyString →
  all_domain_records api (manager_for token) (PyStr d) w = (Ok rs, w1) →
  forallb provider_record rs = true →
  (List.find (declared module) rs = None →
   ∀ created w2,
     new_domain_record api (manager_for token) (PyStr d) (PyStr ty)
       (opt_str (param_data module)) (opt_str (param_name module))
       (opt_int (param_priority module)) (opt_int (param_port module))
       (opt_int (param_weight module)) w1 = (Ok created, w2) →
     created !! "to_json" = None →
     main api module environ (start api w) =
     (Raise (SystemExit 0 [("changed", JVal (PyBool true)); ("record", JObj created)]),
      after api token [ListRecords (PyStr d); create_call module] w2)) ∧
  (∀ j, List.find (declared module) rs = Some j →
     main api module environ (start api w) =
     (Raise (SystemExit 0 [("changed", JVal (PyBool false)); ("record", JObj j)]),
      after api token [ListRecords (PyStr d)] w1)).
Proof.
  intros Hstate Htoken Htype Hdomain Hnonempty Hlist Hrs.
  pose proof (find_in_declared module ty rs Htype
                (provider_records_comparable rs Hrs)) as Hfind.
  split.
  - intros Hnone created w2 Hnew Hplain. rewrite Hnone in Hfind.
    unfold create_call. rewrite Htype, Hdomain. cbn [opt_str].
    by apply (run_create api module environ w token ty d Htoken Htype Hdomain
                Hnonempty rs w1 created w2).
  - intros j Hj. rewrite Hj in Hfind.
    destruct (provider_record_parts j (found_provider_record _ rs j Hrs Hj))
      as (_ & _ & Hplain).
    by apply (run_keep api module environ w token ty d Htoken Htype Hdomain
                Hnonempty rs w1 j).
Qed.

Lemma present_creates_or_keeps_witness :
  main memory_api (www_request "present") ∅ (start memory_api []) =
  (Raise (SystemExit 0 [("changed", JVal (PyBool true)); ("record", JObj www_record)]),
   after memory_api (PyStr "secret")
     [ListRecords (PyStr "example.com"); create_call (www_request "present")]
     [www_record]) ∧
  main memory_api (www_request "present") ∅ (start memory_api [www_record]) =
  (Raise (SystemExit 0 [("changed", JVal (PyBool false)); ("record", JObj www_record)]),
   after memory_api (PyStr "secret") [ListRecords (PyStr "example.com")]
     [www_record]).
Proof.
  split.
  - apply (proj1 (present_creates_or_keeps memory_api (www_request "present") ∅
                    [] [] (PyStr "secret") "A" "example.com" []
                    eq_refl eq_refl eq_refl eq_refl ltac:(discriminate)
                    eq_refl eq_refl) eq_refl www_record [www_record]);
      reflexivity.
  - apply (proj2 (present_creates_or_keeps memory_api (www_request "present") ∅
                    [www_record] [www_record] (PyStr "secret") "A" "example.com"
                    [www_record]
                    eq_refl eq_refl eq_refl eq_refl ltac:(discriminate)
                    eq_refl www_record_schema) www_record).
    cbn [List.find]. by rewrite declared_www.
Defined.

(** C5. A run with [state=absent] whose credential, type and domain
    resolve, whose record list is answered with records [rs] of the
    provider's schema, and where [j] is the first record of [rs] carrying
    the declared tuple: the run sends the record list and then one delete
    request keyed by the member [id] of [j] and, the provider
    acknowledging it, exits with [changed=true] and the
    acknowledgement. *)
Theorem absent_deletes_by_id (api : Dopy) (module : AnsibleModule)
    (environ : gmap string string) (w w1 w2 : world api) (token : pyval)
    (ty d : string) (rs : list (gmap string pyval)) (j : gmap string pyval)
    (id : pyval) (ack : json) :
  param_state module = "absent" →
  resolve_token module environ = Ok token →
  param_type module = Some ty →
  param_domain module = Some d → d ≠ EmptyString →
  all_domain_records api (manager_for token) (PyStr d) w = (Ok rs, w1) →
  forallb provider_record rs = true →
  List.find (declared module) rs = Some j →
  j !! "id" = Some id →
  destroy_domain_record api (manager_for token) (PyStr d) id w1 = (Ok ack, w2) →
  main api module environ (start api w) =
  (Raise (SystemExit 0 [("changed", JVal (PyBool true)); ("event", ack)]),
   after api token [ListRecords (PyStr d); DeleteRecord (PyStr d) id] w2).
Proof.
  intros Hstate Htoken Htype Hdomain Hnonempty Hlist Hrs Hj Hid Hdel.
  pose proof (find_in_declared module ty rs Htype
                (provider_records_comparable rs Hrs)) as Hfind.
  rewrite Hj in Hfind.
  by apply (run_delete api module environ w token ty d Htoken Htype Hdomain
              Hnonempty rs w1 j id ack w2).
Qed.

Lemma absent_deletes_by_id_witness :
  main memory_api (www_request "absent") ∅ (start memory_api [www_record]) =
  (Raise (SystemExit 0 [("changed", JVal (PyBool true)); ("event", JVal (PyBool true))]),
   after memory_api (PyStr "secret")
     [ListRecords (PyStr "example.com");
      DeleteRecord (PyStr "example.com") (PyInt 1)] []).
Proof.
  apply (absent_deletes_by_id memory_api (www_request "absent") ∅
           [www_record] [www_record] [] (PyStr "secret") "A" "example.com"
           [www_record] www_record (PyInt 1) (JVal (PyBool true)));
    try reflexivity.
  discriminate.
Defined.

(** ** Order and number of requests *)

(** C7. Whatever the parameters, the environment and the answers of the
    client, the requests of one run are: none; or the record list alone;
    or the record list followed by exactly one mutating request, a create
    or a delete. So a run that reaches the provider lists the records
    exactly once, before any mutation, and mutates at most once. *)
Theorem one_read_then_at_most_one_write (api : Dopy) (module : AnsibleModule)
    (environ : gmap string string) (w : world api) :
  read_before_write (calls api (main api module environ (start api w)).2) = true.
Proof.
  apply (wp_intro (main api module environ)
           (λ _ s, read_before_write (calls api s) = true)).
  unfold main, core, core_api_token, getkeyordie. wp_params module.
  wp_all; reflexivity.
Qed.

(** ** Failures *)

Lemma main_handles (api : Dopy) module environ (s s' : state api) e :
  core api module environ s = (Raise e, s') →
  main api module environ s = handle api
    [(isinstance_TimeoutError,
      λ e, id ← lift api (exn_id e);
           fail_json api [("msg", JVal (PyStr (exn_str e))); ("id", JVal id)]);
     (λ e, isinstance_DoError e || isinstance_Exception e,
      λ e, fail_json api [("msg", JVal (PyStr (exn_str e)))])] e s'.
Proof. intros Hcore. unfold main, try_except. by rewrite Hcore. Qed.

(** The [SystemExit] of [exit_json] and [fail_json] is no [Exception]: it
    leaves [main] as it left [core]. *)
Lemma main_passes_exit (api : Dopy) module environ (s s' : state api) code kw :
  core api module environ s = (Raise (SystemExit code kw), s') →
  main api module environ s = (Raise (SystemExit code kw), s').
Proof. intros Hcore. by rewrite (main_handles api module environ s s' _ Hcore). Qed.

(** Nothing but [SystemExit] leaves [main]: every run, from any state and
    whatever the client answers or raises, ends in a result envelope. *)
Lemma main_always_exits (api : Dopy) module environ (s : state api) :
  ∃ code kw, (main api module environ s).1 = Raise (SystemExit code kw).
Proof.
  apply (wp_intro (main api module environ)
           (λ o _, ∃ code kw, o = Raise (SystemExit code kw))).
  unfold main, core, core_api_token, getkeyordie. wp_params module.
  wp_all;
    first
      [ by eexists _, _
      | match goal with
        | H : exn_id ?e = Raise _ |- _ => by destruct e
        end
      | match goal with
        | |- ∃ _ _, Raise ?e = _ => destruct e; first [discriminate | by eexists _, _]
        end ].
Qed.




(** ** Repeating a request *)

(** C9. Take a request with [state=present] whose credential, type and
    domain resolve. If one run ends with [changed=true] and the created
    record, and the provider then answers the record list with records of
    its schema among which the created record carries the declared tuple,
    a second run of the same request, on the store the first run left,
    sends the record list alone, no create, and exits with [changed=false]
    and the first record carrying the declared tuple. *)
Theorem present_is_idempotent (api : Dopy) (module : AnsibleModule)
    (environ : gmap string string) (w w2 : world api) (s1 : state api)
    (token : pyval) (ty d : string) (created : gmap string pyval)
    (rs : list (gmap string pyval)) :
  param_state module = "present" →
  resolve_token module environ = Ok token →
  param_type module = Some ty →
  param_domain module = Some d → d ≠ EmptyString →
  main api module environ (start api w) =
  (Raise (SystemExit 0 [("changed", JVal (PyBool true)); ("record", JObj created)]),
   s1) →
  all_domain_records api (manager_for token) (PyStr d) (remote api s1) = (Ok rs, w2) →
  forallb provider_record rs = true →
  In created rs → declared module created = true →
  ∃ j, List.find (declared module) rs = Some j ∧
       main api module environ (start api (remote api s1)) =
       (Raise (SystemExit 0 [("changed", JVal (PyBool false)); ("record", JObj j)]),
        after api token [ListRecords (PyStr d)] w2).
Proof.
  intros Hstate Htoken Htype Hdomain Hnonempty _ Hlist Hrs Hin Hcreated.
  destruct (List.find (declared module) rs) as [j|] eqn:Hj.
  - exists j. split; [reflexivity|].
    pose proof (find_in_declared module ty rs Htype
                  (provider_records_comparable rs Hrs)) as Hfind.
    rewrite Hj in Hfind.
    destruct (provider_record_parts j (found_provider_record _ rs j Hrs Hj))
      as (_ & _ & Hplain).
    by apply (run_keep api module environ (remote api s1) token ty d Htoken
                Htype Hdomain Hnonempty rs w2 j).
  - rewrite (List.find_none _ _ Hj created Hin) in Hcreated. discriminate.
Qed.

Lemma present_is_idempotent_witness :
  ∃ j, List.find (declared (www_request "present")) [www_record] = Some j ∧
       main memory_api (www_request "present") ∅ (start memory_api [www_record]) =
       (Raise (SystemExit 0 [("changed", JVal (PyBool false)); ("record", JObj j)]),
        after memory_api (PyStr "secret") [ListRecords (PyStr "example.com")]
          [www_record]).
Proof.
  apply (present_is_idempotent memory_api (www_request "present") ∅ []
           [www_record]
           (after memory_api (PyStr "secret")
              [ListRecords (PyStr "example.com"); create_call (www_request "present")]
              [www_record])
           (PyStr "secret") "A" "example.com" www_record [www_record]);
    try reflexivity.
  - discriminate.
  - left. reflexivity.
Defined.

(** ** Leaving out [data] *)

(** Once credential, type and domain resolve, the record list is the first
    request of the run, whatever the client answers. *)
Lemma run_reaches_provider (api : Dopy) module environ (w : world api) token ty d :
  resolve_token module environ = Ok token →
  param_type module = Some ty →
  param_domain module = Some d → d ≠ EmptyString →
  ∃ rest, calls api (main api module environ (start api w)).2
          = ListRecords (PyStr d) :: rest.
Proof.
  intros Htoken Htype Hdomain Hnonempty.
  apply (wp_intro (main api module environ)
           (λ _ s, ∃ rest, calls api s = ListRecords (PyStr d) :: rest)).
  unfold main, core, core_api_token, getkeyordie. wp_params module.
  rewrite Htoken, Htype, Hdomain. cbn [opt_str].
  wp_steps. rewrite (truthy_str d Hnonempty). wp_steps.
  wp_all; by eexists.
Qed.

(** C10. A request that leaves [data] out, its credential, type and domain
    resolving, meets no local failure: the run sends the record list. The
    lookup compares with [data] as [None], so a record carries the declared
    tuple only if its own [data] is [None]; with [state=present] the first
    such record is reported with [changed=false], and when there is none
    the create request is sent with [None] for [data]. *)
Theorem data_may_be_omitted (api : Dopy) (module : AnsibleModule)
    (environ : gmap string string) (w : world api) (token : pyval)
    (ty d : string) :
  param_data module = None →
  resolve_token module environ = Ok token →
  param_type module = Some ty →
  param_domain module = Some d → d ≠ EmptyString →
  (∃ rest, calls api (main api module environ (start api w)).2
           = ListRecords (PyStr d) :: rest) ∧
  (∀ j, declared module j = true → j !! "data" = Some PyNone) ∧
  (∀ rs w1,
     param_state module = "present" →
     all_domain_records api (manager_for token) (PyStr d) w = (Ok rs, w1) →
     forallb provider_record rs = true →
     (∀ j, List.find (declared module) rs = Some j →
        main api module environ (start api w) =
        (Raise (SystemExit 0 [("changed", JVal (PyBool false)); ("record", JObj j)]),
         after api token [ListRecords (PyStr d)] w1)) ∧
     (List.find (declared module) rs = None →
      ∀ created w2,
        new_domain_record api (manager_for token) (PyStr d) (PyStr ty) PyNone
          (opt_str (param_name module)) (opt_int (param_priority module))
          (opt_int (param_port module)) (opt_int (param_weight module)) w1
        = (Ok created, w2) →
        created !! "to_json" = None →
        main api module environ (start api w) =
        (Raise (SystemExit 0 [("changed", JVal (PyBool true)); ("record", JObj created)]),
         after api token
           [ListRecords (PyStr d);
            CreateRecord (PyStr d) (PyStr ty) PyNone (opt_str (param_name module))
              (opt_int (param_priority module)) (opt_int (param_port module))
              (opt_int (param_weight module))] w2))).
Proof.
  intros Hdata Htoken Htype Hdomain Hnonempty. split; [|split].
  - by apply (run_reaches_provider api module environ w token ty d).
  - intros j. unfold declared, same_tuple. rewrite Hdata. cbn [opt_str].
    rewrite !andb_true_iff. intros [[[[[_ Hj] _] _] _] _].
    by apply field_equal_None.
  - intros rs w1 Hstate Hlist Hrs.
    pose proof (find_in_declared module ty rs Htype
                  (provider_records_comparable rs Hrs)) as Hfind.
    split.
    + intros j Hj. rewrite Hj in Hfind.
      destruct (provider_record_parts j (found_provider_record _ rs j Hrs Hj))
        as (_ & _ & Hplain).
      by apply (run_keep api module environ w token ty d Htoken Htype Hdomain
                  Hnonempty rs w1 j).
    + intros Hnone created w2 Hnew Hplain. rewrite Hnone in Hfind.
      pose proof (run_create api module environ w token ty d Htoken Htype
                    Hdomain Hnonempty rs w1 created w2 Hstate Hlist Hfind) as Hrun.
      rewrite Hdata in Hrun. cbn [opt_str] in Hrun. by apply Hrun.
Qed.

Lemma data_may_be_omitted_witness :
  main memory_api www_request_no_data ∅ (start memory_api []) =
  (Raise (SystemExit 0
            [("changed", JVal (PyBool true));
             ("record", JObj (memory_new [] (PyStr "A") PyNone (PyStr "www")
                                PyNone PyNone PyNone))]),
   after memory_api (PyStr "secret")
     [ListRecords (PyStr "example.com");
      CreateRecord (PyStr "example.com") (PyStr "A") PyNone (PyStr "www")
        PyNone PyNone PyNone]
     [memory_new [] (PyStr "A") PyNone (PyStr "www") PyNone PyNone PyNone]).
Proof.
  apply (proj2 (proj2 (proj2 (data_may_be_omitted memory_api www_request_no_data
                                ∅ [] (PyStr "secret") "A" "example.com"
                                eq_refl eq_refl eq_refl eq_refl
                                ltac:(discriminate)))
                 [] [] eq_refl eq_refl eq_refl) eq_refl);
    reflexivity.
Defined.

(** * Further properties of the module *)

(** ** Where the token comes from *)

(** [core] reads the environment only in its token expression. *)
Lemma main_token_only (api : Dopy) module environ environ' :
  resolve_token module environ = resolve_token module environ' →
  main api module environ = main api module environ'.
Proof.
  intros Hsame. unfold main, core, core_api_token. by rewrite Hsame.
Qed.

(** X1. A non-empty [api_token] parameter is the token, and the
    environment is not consulted: the run is the same in every
    environment. *)
Theorem explicit_token_ignores_environment (api : Dopy) (module : AnsibleModule)
    (t : string) (environ environ' : gmap string string) (s : state api) :
  param_api_token module = Some t → t ≠ EmptyString →
  resolve_token module environ = Ok (PyStr t) ∧
  main api module environ s = main api module environ' s.
Proof.
  intros Ht Hne.
  assert (∀ env, resolve_token module env = Ok (PyStr t)) as Hresolve.
  { intros env. unfold resolve_token.
    destruct (params_at module) as (_ & -> & _). rewrite Ht. cbn [opt_str].
    cbn [mbind outcome_bind]. by rewrite (truthy_str t Hne). }
  split; [apply Hresolve|].
  by rewrite (main_token_only api module environ environ')
    by (by rewrite !Hresolve).
Qed.

Lemma explicit_token_ignores_environment_witness :
  resolve_token (www_request "present") key_only = Ok (PyStr "secret") ∧
  main memory_api (www_request "present") key_only (start memory_api []) =
  main memory_api (www_request "present") empty_variables (start memory_api []).
Proof.
  apply (explicit_token_ignores_environment memory_api (www_request "present")
           "secret" key_only empty_variables (start memory_api [])).
  - reflexivity.
  - discriminate.
Defined.

(** X2. An [api_token] parameter that is not true for [or], which among
    the values a [str] parameter can hold means the empty string, counts
    as unset: the run is the one of the same request without [api_token],
    fallbacks and failures included. *)
Theorem empty_token_is_unset (api : Dopy) (module : AnsibleModule)
    (t : option string) (environ : gmap string string) (s : state api) :
  truthy (opt_str t) = false →
  main api (with_api_token module t) environ s =
  main api (with_api_token module None) environ s.
Proof.
  intros Ht. destruct t as [[|c t]|].
  - reflexivity.
  - discriminate Ht.
  - reflexivity.
Qed.

Lemma empty_token_is_unset_witness :
  main memory_api (with_api_token www_request_no_token (Some EmptyString))
    key_only (start memory_api []) =
  main memory_api (with_api_token www_request_no_token None)
    key_only (start memory_api []).
Proof.
  apply (empty_token_is_unset memory_api www_request_no_token
           (Some EmptyString) key_only (start memory_api [])).
  reflexivity.
Defined.

(** X3. DO_API_KEY is read only when [api_token] is unset or empty and
    DO_API_TOKEN is set to the empty string. In every other case two
    environments that differ in DO_API_KEY alone give the same run; in
    particular a non-empty DO_API_TOKEN wins over DO_API_KEY. *)
Theorem key_is_the_last_resort (api : Dopy) (module : AnsibleModule)
    (environ environ' : gmap string string) (s : state api) :
  (∀ v, v ≠ "DO_API_KEY" → environ !! v = environ' !! v) →
  truthy (opt_str (param_api_token module)) = true ∨
  environ !! "DO_API_TOKEN" ≠ Some EmptyString →
  main api module environ s = main api module environ' s.
Proof.
  intros Hagree Hcase. rewrite (main_token_only api module environ environ'); [done|].
  unfold resolve_token, os_environ.
  destruct (params_at module) as (_ & -> & _). cbn [mbind outcome_bind].
  destruct (truthy (opt_str (param_api_token module))) eqn:Hp; [done|].
  destruct Hcase as [?|Hcase]; [done|].
  rewrite <- (Hagree "DO_API_TOKEN") by discriminate.
  destruct (environ !! "DO_API_TOKEN") as [[|c t]|]; cbn; done.
Qed.

Lemma key_is_the_last_resort_witness :
  main memory_api www_request_no_token
    {["DO_API_TOKEN" := "secret"]} (start memory_api []) =
  main memory_api www_request_no_token
    (<["DO_API_KEY" := "other"]> {["DO_API_TOKEN" := "secret"]})
    (start memory_api []).
Proof.
  apply (key_is_the_last_resort memory_api www_request_no_token
           {["DO_API_TOKEN" := "secret"]}
           (<["DO_API_KEY" := "other"]> {["DO_API_TOKEN" := "secret"]})
           (start memory_api [])).
  - intros v Hv. by rewrite lookup_insert_ne.
  - right. discriminate.
Defined.

(** ** Local checks *)

(** X4. With a credential, a missing [type] or a missing [domain] ends the
    run in the failure "Unable to load <parameter>" with nothing sent and
    no manager built; [type] is checked first. *)
Theorem missing_parameter_fails_locally (api : Dopy) (module : AnsibleModule)
    (environ : gmap string string) (w : world api) (token : pyval) :
  resolve_token module environ = Ok token →
  (param_type module = None →
   main api module environ (start api w) =
   (Raise (SystemExit 1 [("msg", JVal (PyStr "Unable to load type"))]),
    start api w)) ∧
  (∀ ty, param_type module = Some ty → param_domain module = None →
   main api module environ (start api w) =
   (Raise (SystemExit 1 [("msg", JVal (PyStr "Unable to load domain"))]),
    start api w)).
Proof.
  intros Htoken. split.
  - intros Htype. apply wp_run. unfold main, core, core_api_token, getkeyordie.
    wp_params module. rewrite Htoken, Htype. cbn [opt_str]. by wp_steps.
  - intros ty Htype Hdomain. apply wp_run.
    unfold main, core, core_api_token, getkeyordie.
    wp_params module. rewrite Htoken, Htype, Hdomain. cbn [opt_str]. by wp_steps.
Qed.

Lemma missing_parameter_fails_locally_witness :
  main memory_api (www_request_in None) ∅ (start memory_api []) =
  (Raise (SystemExit 1 [("msg", JVal (PyStr "Unable to load domain"))]),
   start memory_api []).
Proof.
  apply (proj2 (missing_parameter_fails_locally memory_api (www_request_in None)
                  ∅ [] (PyStr "secret") eq_refl) "A" eq_refl eq_refl).
Defined.

(** X5. With a credential and a type, a [domain] set to the empty string
    passes [getkeyordie] (it is not [None]) and fails at the next check:
    the run ends in the failure "Domain not found " after [Domain.setup]
    has stored the manager, with nothing sent. *)
Theorem empty_domain_fails_after_setup (api : Dopy) (module : AnsibleModule)
    (environ : gmap string string) (w : world api) (token : pyval) (ty : string) :
  resolve_token module environ = Ok token →
  param_type module = Some ty →
  param_domain module = Some EmptyString →
  main api module environ (start api w) =
  (Raise (SystemExit 1 [("msg", JVal (PyStr "Domain not found "))]),
   after api token [] w).
Proof.
  intros Htoken Htype Hdomain. apply wp_run.
  unfold main, core, core_api_token, getkeyordie.
  wp_params module. rewrite Htoken, Htype, Hdomain. cbn [opt_str]. by wp_steps.
Qed.

Lemma empty_domain_fails_after_setup_witness :
  main memory_api (www_request_in (Some EmptyString)) ∅ (start memory_api []) =
  (Raise (SystemExit 1 [("msg", JVal (PyStr "Domain not found "))]),
   after memory_api (PyStr "secret") [] []).
Proof.
  apply (empty_domain_fails_after_setup memory_api
           (www_request_in (Some EmptyString)) ∅ [] (PyStr "secret") "A");
    reflexivity.
Defined.

(** ** When the provider or its answer fails *)

Section Failures.

Context (api : Dopy) (module : AnsibleModule) (environ : gmap string string).
Context (w : world api) (token : pyval) (ty d : string).

Hypothesis Htoken : resolve_token module environ = Ok token.
Hypothesis Htype : param_type module = Some ty.
Hypothesis Hdomain : param_domain module = Some d.
Hypothesis Hnonempty : d ≠ EmptyString.

(** Up to the record-list request. *)
Ltac to_list :=
  unfold main, core, core_api_token, getkeyordie;
  wp_params module; rewrite Htoken, Htype, Hdomain; cbn [opt_str];
  wp_steps; rewrite (truthy_str d Hnonempty); wp_steps.

Lemma run_list_raises e w1 :
  all_domain_records api (manager_for token) (PyStr d) w = (Raise e, w1) →
  isinstance_Exception e = true →
  main api module environ (start api w) =
  (Raise (SystemExit 1 (failure_envelope e)),
   after api token [ListRecords (PyStr d)] w1).
Proof.
  intros Hlist He. apply wp_run. to_list. rewrite Hlist. wp_steps.
  by destruct e.
Qed.

Lemma run_create_raises rs w1 e w2 :
  param_state module = "present" →
  all_domain_records api (manager_for token) (PyStr d) w = (Ok rs, w1) →
  find_in (map Build_DomainRecord rs) (PyStr ty) (opt_str (param_data module))
    (opt_str (param_name module)) (opt_int (param_priority module))
    (opt_int (param_port module)) (opt_int (param_weight module)) = Ok PyFalse →
  new_domain_record api (manager_for token) (PyStr d) (PyStr ty)
    (opt_str (param_data module)) (opt_str (param_name module))
    (opt_int (param_priority module)) (opt_int (param_port module))
    (opt_int (param_weight module)) w1 = (Raise e, w2) →
  isinstance_Exception e = true →
  main api module environ (start api w) =
  (Raise (SystemExit 1 (failure_envelope e)),
   after api token
     [ListRecords (PyStr d);
      CreateRecord (PyStr d) (PyStr ty) (opt_str (param_data module))
        (opt_str (param_name module)) (opt_int (param_priority module))
        (opt_int (param_port module)) (opt_int (param_weight module))] w2).
Proof.
  intros Hstate Hlist Hfind Hnew He. apply wp_run. to_list.
  rewrite Hlist. wp_steps. rewrite Hfind, Hstate. wp_steps.
  rewrite Hnew. wp_steps. by destruct e.
Qed.

Lemma run_delete_raises rs w1 j id e w2 :
  param_state module = "absent" →
  all_domain_records api (manager_for token) (PyStr d) w = (Ok rs, w1) →
  find_in (map Build_DomainRecord rs) (PyStr ty) (opt_str (param_data module))
    (opt_str (param_name module)) (opt_int (param_priority module))
    (opt_int (param_port module)) (opt_int (param_weight module))
  = Ok (Instance (Build_DomainRecord j)) →
  j !! "id" = Some id →
  destroy_domain_record api (manager_for token) (PyStr d) id w1 = (Raise e, w2) →
  isinstance_Exception e = true →
  main api module environ (start api w) =
  (Raise (SystemExit 1 (failure_envelope e)),
   after api token [ListRecords (PyStr d); DeleteRecord (PyStr d) id] w2).
Proof.
  intros Hstate Hlist Hfind Hid Hdel He. apply wp_run. to_list.
  rewrite Hlist. wp_steps. rewrite Hfind, Hstate. wp_steps.
  cbn [found_getattr]. unfold getattr. cbn [__dict__]. rewrite Hid. wp_steps.
  rewrite Hdel. wp_steps. by destruct e.
Qed.

Lemma run_delete_without_id rs w1 j :
  param_state module = "absent" →
  all_domain_records api (manager_for token) (PyStr d) w = (Ok rs, w1) →
  find_in (map Build_DomainRecord rs) (PyStr ty) (opt_str (param_data module))
    (opt_str (param_name module)) (opt_int (param_priority module))
    (opt_int (param_port module)) (opt_int (param_weight module))
  = Ok (Instance (Build_DomainRecord j)) →
  j !! "id" = None →
  main api module environ (start api w) =
  (Raise (SystemExit 1
            [("msg", JVal (PyStr "'DomainRecord' object has no attribute 'id'"))]),
   after api token [ListRecords (PyStr d)] w1).
Proof.
  intros Hstate Hlist Hfind Hid. apply wp_run. to_list.
  rewrite Hlist. wp_steps. rewrite Hfind, Hstate. wp_steps.
  cbn [found_getattr]. unfold getattr. cbn [__dict__]. rewrite Hid. by wp_steps.
Qed.

Lemma run_lookup_raises rs w1 e :
  all_domain_records api (manager_for token) (PyStr d) w = (Ok rs, w1) →
  find_in (map Build_DomainRecord rs) (PyStr ty) (opt_str (param_data module))
    (opt_str (param_name module)) (opt_int (param_priority module))
    (opt_int (param_port module)) (opt_int (param_weight module)) = Raise e →
  isinstance_Exception e = true →
  main api module environ (start api w) =
  (Raise (SystemExit 1 (failure_envelope e)),
   after api token [ListRecords (PyStr d)] w1).
Proof.
  intros Hlist Hfind He. apply wp_run. to_list.
  rewrite Hlist. wp_steps. rewrite Hfind. wp_steps. by destruct e.
Qed.

End Failures.

(** X6. With credential, type and domain resolved, an exception raised by
    the record-list request ends the run in the failure envelope of that
    exception; the list request is the only one sent, whatever [state]
    is. *)
Theorem list_failure_is_reported (api : Dopy) (module : AnsibleModule)
    (environ : gmap string string) (w w1 : world api) (token : pyval)
    (ty d : string) (e : exn) :
  resolve_token module environ = Ok token →
  param_type module = Some ty →
  param_domain module = Some d → d ≠ EmptyString →
  all_domain_records api (manager_for token) (PyStr d) w = (Raise e, w1) →
  isinstance_Exception e = true →
  main api module environ (start api w) =
  (Raise (SystemExit 1 (failure_envelope e)),
   after api token [ListRecords (PyStr d)] w1).
Proof.
  intros Htoken Htype Hdomain Hnonempty Hlist He.
  by apply (run_list_raises api module environ w token ty d).
Qed.

Lemma list_failure_is_reported_witness :
  main rejected_api (www_request "absent") ∅ (start rejected_api tt) =
  (Raise (SystemExit 1 [("msg", JVal (PyStr "Unable to authenticate you."))]),
   after rejected_api (PyStr "secret") [ListRecords (PyStr "example.com")] tt).
Proof.
  apply (list_failure_is_reported rejected_api (www_request "absent") ∅ tt tt (PyStr "secret") "A" "example.com"
           (DoError "Unable to authenticate you."));
    try reflexivity.
  discriminate.
Defined.

(** X7. An exception raised by the mutating request is reported as a
    failure after the request has gone out: with [state=present] and no
    record carrying the declared tuple, a failing create leaves the
    requests list-then-create and the failure envelope of the exception;
    with [state=absent] and a matching record, a failing delete leaves
    list-then-delete and the failure envelope. Nothing is sent after the
    failing request. *)
Theorem mutation_failure_is_reported (api : Dopy) (module : AnsibleModule)
    (environ : gmap string string) (w w1 w2 : world api) (token : pyval)
    (ty d : string) (rs : list (gmap string pyval)) (e : exn) :
  resolve_token module environ = Ok token →
  param_type module = Some ty →
  param_domain module = Some d → d ≠ EmptyString →
  all_domain_records api (manager_for token) (PyStr d) w = (Ok rs, w1) →
  forallb comparable rs = true →
  isinstance_Exception e = true →
  (param_state module = "present" →
   List.find (declared module) rs = None →
   new_domain_record api (manager_for token) (PyStr d) (PyStr ty)
     (opt_str (param_data module)) (opt_str (param_name module))
     (opt_int (param_priority module)) (opt_int (param_port module))
     (opt_int (param_weight module)) w1 = (Raise e, w2) →
   main api module environ (start api w) =
   (Raise (SystemExit 1 (failure_envelope e)),
    after api token [ListRecords (PyStr d); create_call module] w2)) ∧
  (param_state module = "absent" →
   ∀ j id, List.find (declared module) rs = Some j → j !! "id" = Some id →
   destroy_domain_record api (manager_for token) (PyStr d) id w1 = (Raise e, w2) →
   main api module environ (start api w) =
   (Raise (SystemExit 1 (failure_envelope e)),
    after api token [ListRecords (PyStr d); DeleteRecord (PyStr d) id] w2)).
Proof.
  intros Htoken Htype Hdomain Hnonempty Hlist Hrs He.
  pose proof (find_in_declared module ty rs Htype Hrs) as Hfind.
  split.
  - intros Hstate Hnone Hnew. rewrite Hnone in Hfind.
    unfold create_call. rewrite Htype, Hdomain. cbn [opt_str].
    by apply (run_create_raises api module environ w token ty d Htoken Htype
                Hdomain Hnonempty rs w1 e w2).
  - intros Hstate j id Hj Hid Hdel. rewrite Hj in Hfind.
    by apply (run_delete_raises api module environ w token ty d Htoken Htype
                Hdomain Hnonempty rs w1 j id e w2).
Qed.

Lemma mutation_failure_is_reported_witness :
  main refusing_api (www_request "present") ∅ (start refusing_api tt) =
  (Raise (SystemExit 1 [("msg", JVal (PyStr "Name is invalid"))]),
   after refusing_api (PyStr "secret")
     [ListRecords (PyStr "example.com"); create_call (www_request "present")] tt).
Proof.
  apply (proj1 (mutation_failure_is_reported refusing_api
                  (www_request "present") ∅ tt tt tt (PyStr "secret") "A"
                  "example.com" [] (DoError "Name is invalid")
                  eq_refl eq_refl eq_refl ltac:(discriminate) eq_refl eq_refl
                  eq_refl));
    reflexivity.
Defined.

(** X8. With [state=absent], when the first record carrying the declared
    tuple has no member [id], reading [record.id] raises [AttributeError]:
    the run fails with "'DomainRecord' object has no attribute 'id'" and
    no delete request is sent. *)
Theorem match_without_id_is_not_deleted (api : Dopy) (module : AnsibleModule)
    (environ : gmap string string) (w w1 : world api) (token : pyval)
    (ty d : string) (rs : list (gmap string pyval)) (j : gmap string pyval) :
  param_state module = "absent" →
  resolve_token module environ = Ok token →
  param_type module = Some ty →
  param_domain module = Some d → d ≠ EmptyString →
  all_domain_records api (manager_for token) (PyStr d) w = (Ok rs, w1) →
  forallb comparable rs = true →
  List.find (declared module) rs = Some j →
  j !! "id" = None →
  main api module environ (start api w) =
  (Raise (SystemExit 1
            [("msg", JVal (PyStr "'DomainRecord' object has no attribute 'id'"))]),
   after api token [ListRecords (PyStr d)] w1).
Proof.
  intros Hstate Htoken Htype Hdomain Hnonempty Hlist Hrs Hj Hid.
  pose proof (find_in_declared module ty rs Htype Hrs) as Hfind.
  rewrite Hj in Hfind.
  by apply (run_delete_without_id api module environ w token ty d Htoken Htype
              Hdomain Hnonempty rs w1 j).
Qed.

Lemma match_without_id_is_not_deleted_witness :
  main memory_api (www_request "absent") ∅ (start memory_api [www_record_no_id]) =
  (Raise (SystemExit 1
            [("msg", JVal (PyStr "'DomainRecord' object has no attribute 'id'"))]),
   after memory_api (PyStr "secret") [ListRecords (PyStr "example.com")]
     [www_record_no_id]).
Proof.
  apply (match_without_id_is_not_deleted memory_api (www_request "absent") ∅
           [www_record_no_id] [www_record_no_id] (PyStr "secret") "A"
           "example.com" [www_record_no_id] www_record_no_id);
    try reflexivity.
  discriminate.
Defined.

(** X9. With [state=absent], credential, type and domain resolved and a
    record list in which no record carries the declared tuple, every run
    ends the same way: the closing [record.to_json()] is evaluated on
    [False], and the run reports the failure "'bool' object has no
    attribute 'to_json'" after the record list alone. *)
Theorem absent_without_match_always_fails (api : Dopy) (module : AnsibleModule)
    (environ : gmap string string) (w w1 : world api) (token : pyval)
    (ty d : string) (rs : list (gmap string pyval)) :
  param_state module = "absent" →
  resolve_token module environ = Ok token →
  param_type module = Some ty →
  param_domain module = Some d → d ≠ EmptyString →
  all_domain_records api (manager_for token) (PyStr d) w = (Ok rs, w1) →
  forallb comparable rs = true →
  List.find (declared module) rs = None →
  main api module environ (start api w) =
  (Raise (SystemExit 1
            [("msg", JVal (PyStr "'bool' object has no attribute 'to_json'"))]),
   after api token [ListRecords (PyStr d)] w1).
Proof.
  intros Hstate Htoken Htype Hdomain Hnonempty Hlist Hrs Hnone.
  pose proof (find_in_declared module ty rs Htype Hrs) as Hfind.
  rewrite Hnone in Hfind.
  by apply (run_absent_nothing api module environ w token ty d Htoken Htype
              Hdomain Hnonempty rs w1).
Qed.

Lemma absent_without_match_always_fails_witness :
  main memory_api (www_request "absent") ∅ (start memory_api [mail_record]) =
  (Raise (SystemExit 1
            [("msg", JVal (PyStr "'bool' object has no attribute 'to_json'"))]),
   after memory_api (PyStr "secret") [ListRecords (PyStr "example.com")]
     [mail_record]).
Proof.
  apply (absent_without_match_always_fails memory_api (www_request "absent") ∅
           [mail_record] [mail_record] (PyStr "secret") "A"
           "example.com" [mail_record]);
    try reflexivity.
  discriminate.
Defined.

(** ** The lookup, member by member *)

(** The chain of [and] in [find_record] evaluates like the comparisons
    taken one after the other. *)
Lemma record_matches_in_order record type data name priority port weight :
  record_matches record type data name priority port weight
  = compare_in_order record (compared type data name priority port weight).
Proof.
  unfold record_matches, compared, py_and. cbn [compare_in_order].
  destruct (getattr record "type") as [x1|]; cbn; [|done].
  destruct (py_eq x1 type); cbn; [|done].
  destruct (getattr record "data") as [x2|]; cbn; [|done].
  destruct (py_eq x2 data); cbn; [|done].
  destruct (getattr record "name") as [x3|]; cbn; [|done].
  destruct (py_eq x3 name); cbn; [|done].
  destruct (getattr record "priority") as [x4|]; cbn; [|done].
  destruct (py_eq x4 priority); cbn; [|done].
  destruct (getattr record "port") as [x5|]; cbn; [|done].
  destruct (py_eq x5 port); cbn; [|done].
  destruct (getattr record "weight") as [x6|]; cbn; [|done].
  by destruct (py_eq x6 weight).
Qed.

Lemma compare_in_order_app record pre fields :
  forallb (λ kv, field_equal (__dict__ record) kv.1 kv.2) pre = true →
  compare_in_order record (pre ++ fields) = compare_in_order record fields.
Proof.
  induction pre as [|[k v] pre IH]; [done|].
  cbn [forallb app compare_in_order fst snd]. rewrite andb_true_iff.
  intros [Hk Hpre]. unfold field_equal in Hk. unfold getattr.
  destruct (__dict__ record !! k) as [x|]; [|done]. cbn.
  rewrite Hk. by apply IH.
Qed.

Lemma same_tuple_matches j type data name priority port weight :
  same_tuple j type data name priority port weight = true →
  record_matches (Build_DomainRecord j) type data name priority port weight = Ok true.
Proof.
  intros Hj. rewrite record_matches_in_order.
  rewrite <- (app_nil_r (compared _ _ _ _ _ _)).
  rewrite compare_in_order_app; [done|].
  unfold same_tuple in Hj. cbn [compared forallb fst snd __dict__].
  rewrite !andb_true_iff in Hj. destruct Hj as [[[[[-> ->] ->] ->] ->] ->]. done.
Qed.

(** X10. The loop of [find_record] stops at the first record whose tuple
    equals the request's: when the records before it carry the six
    compared members and none of them matches, that record is returned
    whatever follows it in the list; the records after it are never
    read, so they may lack any member. *)
Theorem lookup_stops_at_first_match (pre post : list (gmap string pyval))
    (j : gmap string pyval) (type data name priority port weight : pyval) :
  forallb comparable pre = true →
  forallb (λ x, negb (same_tuple x type data name priority port weight)) pre = true →
  same_tuple j type data name priority port weight = true →
  find_in (map Build_DomainRecord (pre ++ j :: post))
    type data name priority port weight
  = Ok (Instance (Build_DomainRecord j)).
Proof.
  induction pre as [|x pre IH]; cbn [forallb app map find_in].
  - intros _ _ Hj. by rewrite (same_tuple_matches j _ _ _ _ _ _ Hj).
  - rewrite !andb_true_iff. intros [Hx Hpre] [Hno Hnone] Hj.
    rewrite record_matches_same by exact Hx.
    apply negb_true_iff in Hno. rewrite Hno. cbn. by apply IH.
Qed.

Lemma lookup_stops_at_first_match_witness :
  find_in (map Build_DomainRecord [mail_record; www_record; bare_mx_record])
    (PyStr "A") (PyStr "127.0.0.1") (PyStr "www") PyNone PyNone PyNone
  = Ok (Instance (Build_DomainRecord www_record)).
Proof.
  apply (lookup_stops_at_first_match [mail_record] [bare_mx_record] www_record);
    reflexivity.
Defined.

(** X11. The comparison of one record ends at the first member that
    differs: when the members before [k], in the order type, data, name,
    priority, port, weight, are there and equal the request's, and member
    [k] is there and differs, the record is passed over and the loop goes
    on with the next one, even if the record lacks the members after
    [k]. *)
Theorem differing_member_skips_record (j : gmap string pyval)
    (rest : list DomainRecord) (type data name priority port weight : pyval)
    (before after_k : list (string * pyval)) (k : string) (v x : pyval) :
  compared type data name priority port weight = before ++ (k, v) :: after_k →
  forallb (λ kv, field_equal j kv.1 kv.2) before = true →
  j !! k = Some x → py_eq x v = false →
  find_in (Build_DomainRecord j :: rest) type data name priority port weight
  = find_in rest type data name priority port weight.
Proof.
  intros Hsplit Hbefore Hk Hx. cbn [find_in].
  rewrite record_matches_in_order, Hsplit.
  rewrite compare_in_order_app by exact Hbefore.
  cbn [compare_in_order]. unfold getattr. cbn [__dict__]. rewrite Hk. cbn.
  by rewrite Hx.
Qed.

Lemma differing_member_skips_record_witness :
  find_in [Build_DomainRecord bare_mx_record; Build_DomainRecord www_record]
    (PyStr "A") (PyStr "127.0.0.1") (PyStr "www") PyNone PyNone PyNone
  = find_in [Build_DomainRecord www_record]
      (PyStr "A") (PyStr "127.0.0.1") (PyStr "www") PyNone PyNone PyNone.
Proof.
  apply (differing_member_skips_record bare_mx_record
           [Build_DomainRecord www_record]
           (PyStr "A") (PyStr "127.0.0.1") (PyStr "www") PyNone PyNone PyNone
           []
           [("data", PyStr "127.0.0.1"); ("name", PyStr "www");
            ("priority", PyNone); ("port", PyNone); ("weight", PyNone)]
           "type" (PyStr "A") (PyStr "MX"));
    reflexivity.
Defined.

(** X12. A record that lacks a compared member stops the run when the
    loop reaches that member: with credential, type and domain resolved
    and a record list [pre ++ j :: post] in which the records of [pre]
    carry the six members and do not match, and [j] equals the request on
    the members before [k] but has no member [k], the run fails with
    "'DomainRecord' object has no attribute '<k>'" after the record list
    alone, whatever [state] is. *)
Theorem missing_member_fails_the_run (api : Dopy) (module : AnsibleModule)
    (environ : gmap string string) (w w1 : world api) (token : pyval)
    (ty d : string) (pre post : list (gmap string pyval)) (j : gmap string pyval)
    (before after_k : list (string * pyval)) (k : string) (v : pyval) :
  resolve_token module environ = Ok token →
  param_type module = Some ty →
  param_domain module = Some d → d ≠ EmptyString →
  all_domain_records api (manager_for token) (PyStr d) w
  = (Ok (pre ++ j :: post), w1) →
  forallb comparable pre = true →
  forallb (λ x, negb (declared module x)) pre = true →
  compared (PyStr ty) (opt_str (param_data module)) (opt_str (param_name module))
    (opt_int (param_priority module)) (opt_int (param_port module))
    (opt_int (param_weight module)) = before ++ (k, v) :: after_k →
  forallb (λ kv, field_equal j kv.1 kv.2) before = true →
  j !! k = None →
  main api module environ (start api w) =
  (Raise (SystemExit 1
            [("msg", JVal (PyStr ("'DomainRecord' object has no attribute '"
                                  +:+ k +:+ "'")))]),
   after api token [ListRecords (PyStr d)] w1).
Proof.
  intros Htoken Htype Hdomain Hnonempty Hlist Hpre Hnone Hsplit Hbefore Hk.
  apply (run_lookup_raises api module environ w token ty d Htoken Htype
           Hdomain Hnonempty (pre ++ j :: post) w1
           (AttributeError ("'DomainRecord' object has no attribute '" +:+ k +:+ "'")));
    [exact Hlist| |reflexivity].
  unfold declared in Hnone. rewrite Htype in Hnone. cbn [opt_str] in Hnone.
  clear Hlist. induction pre as [|x pre IH]; cbn [app map find_in].
  - rewrite record_matches_in_order, Hsplit.
    rewrite compare_in_order_app by exact Hbefore.
    cbn [compare_in_order]. unfold getattr. cbn [__dict__]. by rewrite Hk.
  - cbn [forallb] in Hpre, Hnone. apply andb_true_iff in Hpre as [Hx Hpre].
    apply andb_true_iff in Hnone as [Hno Hnone].
    rewrite record_matches_same by exact Hx.
    apply negb_true_iff in Hno. rewrite Hno. cbn. by apply IH.
Qed.

Lemma missing_member_fails_the_run_witness :
  main memory_api (www_request "present") ∅
    (start memory_api [mail_record; delete "name" www_record]) =
  (Raise (SystemExit 1
            [("msg", JVal (PyStr "'DomainRecord' object has no attribute 'name'"))]),
   after memory_api (PyStr "secret") [ListRecords (PyStr "example.com")]
     [mail_record; delete "name" www_record]).
Proof.
  apply (missing_member_fails_the_run memory_api (www_request "present") ∅
           [mail_record; delete "name" www_record]
           [mail_record; delete "name" www_record]
           (PyStr "secret") "A" "example.com"
           [mail_record] [] (delete "name" www_record)
           [("type", PyStr "A"); ("data", PyStr "127.0.0.1")]
           [("priority", PyNone); ("port", PyNone); ("weight", PyNone)]
           "name" (PyStr "www"));
    try reflexivity.
  discriminate.
Defined.

(** ** What every run has in common *)

Lemma getattr_raises record k e :
  getattr record k = Raise e → isinstance_Exception e = true.
Proof. unfold getattr. destruct (_ !! k); [done|by intros [= <-]]. Qed.

Lemma found_getattr_raises r k e :
  found_getattr r k = Raise e → isinstance_Exception e = true.
Proof. destruct r; cbn; [apply getattr_raises|by intros [= <-]]. Qed.

Lemma to_json_raises r e :
  to_json r = Raise e → isinstance_Exception e = true.
Proof.
  destruct r as [record|]; cbn; [|by intros [= <-]].
  destruct (_ !! "to_json"); [by intros [= <-]|done].
Qed.

Lemma compare_in_order_raises record fields e :
  compare_in_order record fields = Raise e → isinstance_Exception e = true.
Proof.
  induction fields as [|[k v] fields IH]; cbn [compare_in_order]; [done|].
  destruct (getattr record k) as [x|e'] eqn:Hk; cbn.
  - destruct (py_eq x v); [apply IH|done].
  - intros [= <-]. by apply (getattr_raises record k).
Qed.

Lemma find_in_raises rs type data name priority port weight e :
  find_in rs type data name priority port weight = Raise e →
  isinstance_Exception e = true.
Proof.
  induction rs as [|record rs IH]; cbn [find_in]; [done|].
  destruct (record_matches record type data name priority port weight)
    as [[|]|e'] eqn:Hm; cbn; [done|apply IH|].
  intros [= <-]. rewrite record_matches_in_order in Hm.
  by apply (compare_in_order_raises record _ _ Hm).
Qed.

Lemma fst_raises {A W} (p : outcome A * W) e :
  p.1 = Raise e → ∃ w', p = (Raise e, w').
Proof. destruct p as [o w']. cbn. intros ->. by exists w'. Qed.

(** An exception that passed both clauses of [main] cannot have come from
    the module's own lookups or from a client that raises exceptions. *)
Ltac not_an_exit Hclient :=
  let He := fresh "He" in
  match goal with
  | H : exn_id ?e = Raise _ |- _ => by destruct e
  | H : (if ?b then Ok _ else Ok _) = Raise _ |- _ => by destruct b
  | H : resolve_token _ _ = Raise ?e |- _ =>
      pose proof (resolve_token_raises _ _ _ H) as He; by destruct e
  | H : find_in _ _ _ _ _ _ _ = Raise ?e |- _ =>
      pose proof (find_in_raises _ _ _ _ _ _ _ _ H) as He; by destruct e
  | H : to_json _ = Raise ?e |- _ =>
      pose proof (to_json_raises _ _ H) as He; by destruct e
  | H : found_getattr _ _ = Raise ?e |- _ =>
      pose proof (found_getattr_raises _ _ _ H) as He; by destruct e
  | H : (destroy_domain_record _ _ _ _ _).1 = Raise ?e |- _ =>
      destruct (fst_raises _ _ H) as [? H'];
      pose proof (proj2 (proj2 Hclient) _ _ _ _ _ _ H') as He; by destruct e
  | H : (new_domain_record _ _ _ _ _ _ _ _ _ _).1 = Raise ?e |- _ =>
      destruct (fst_raises _ _ H) as [? H'];
      pose proof (proj1 (proj2 Hclient) _ _ _ _ _ _ _ _ _ _ _ H') as He;
      by destruct e
  | H : (all_domain_records _ _ _ _).1 = Raise ?e |- _ =>
      destruct (fst_raises _ _ H) as [? H'];
      pose proof (proj1 Hclient _ _ _ _ _ H') as He; by destruct e
  end.

(** X13. Over a client that raises only exceptions, a run that ends with
    success status has one of three shapes: [changed=true] with the
    created record after list-then-create; [changed=true] with the
    acknowledgement after list-then-delete; [changed=false] with the found
    record after the list alone. So a successful run reports [changed]
    exactly when it sent a mutating request, and it never succeeds without
    having listed the records. *)
Theorem success_has_three_shapes (api : Dopy) (module : AnsibleModule)
    (environ : gmap string string) (w : world api) (kw : kwargs) :
  raises_only_exceptions api →
  (main api module environ (start api w)).1 = Raise (SystemExit 0 kw) →
  success kw (calls api (main api module environ (start api w)).2).
Proof.
  intros Hclient.
  apply (wp_intro (main api module environ)
           (λ o s, o = Raise (SystemExit 0 kw) → success kw (calls api s))).
  unfold main, core, core_api_token, getkeyordie. wp_params module.
  wp_all; try (by intros [=]).
  all: try (intros [= <-]; by econstructor).
  all: not_an_exit Hclient.
Qed.

Lemma memory_api_raises_nothing : raises_only_exceptions memory_api.
Proof. by repeat split. Qed.

Lemma success_has_three_shapes_witness :
  success [("changed", JVal (PyBool true)); ("event", JVal (PyBool true))]
    (calls memory_api
       (main memory_api (www_request "absent") ∅ (start memory_api [www_record])).2).
Proof.
  apply (success_has_three_shapes memory_api (www_request "absent") ∅
           [www_record] _ memory_api_raises_nothing).
  reflexivity.
Defined.

(** X14. Whatever the state, a record list that holds a record carrying
    the declared tuple never leads to a create request, and a record list
    that holds none never leads to a delete request: the module adds no
    second copy of a record it found and removes nothing it did not
    find. The [state] parameter may be any string here. *)
Theorem mutation_follows_the_lookup (api : Dopy) (module : AnsibleModule)
    (environ : gmap string string) (w w1 : world api) (token : pyval)
    (ty d : string) (rs : list (gmap string pyval)) :
  resolve_token module environ = Ok token →
  param_type module = Some ty →
  param_domain module = Some d → d ≠ EmptyString →
  all_domain_records api (manager_for token) (PyStr d) w = (Ok rs, w1) →
  forallb comparable rs = true →
  (is_Some (List.find (declared module) rs) →
   existsb is_create (calls api (main api module environ (start api w)).2) = false) ∧
  (List.find (declared module) rs = None →
   existsb is_delete (calls api (main api module environ (start api w)).2) = false).
Proof.
  intros Htoken Htype Hdomain Hnonempty Hlist Hrs.
  pose proof (find_in_declared module ty rs Htype Hrs) as Hfind.
  split.
  - intros [j Hj]. rewrite Hj in Hfind.
    apply (wp_intro (main api module environ)
             (λ _ s, existsb is_create (calls api s) = false)).
    unfold main, core, core_api_token, getkeyordie. wp_params module.
    rewrite Htoken, Htype, Hdomain. cbn [opt_str].
    wp_steps. rewrite (truthy_str d Hnonempty). wp_steps.
    rewrite Hlist. wp_steps. rewrite Hfind.
    wp_all;
      first [ reflexivity
            | match goal with
              | H : (if ?b then _ else _) = _ |- _ => by destruct b
              end ].
  - intros Hnone. rewrite Hnone in Hfind.
    apply (wp_intro (main api module environ)
             (λ _ s, existsb is_delete (calls api s) = false)).
    unfold main, core, core_api_token, getkeyordie. wp_params module.
    rewrite Htoken, Htype, Hdomain. cbn [opt_str].
    wp_steps. rewrite (truthy_str d Hnonempty). wp_steps.
    rewrite Hlist. wp_steps. rewrite Hfind.
    wp_all;
      first [ reflexivity
            | match goal with
              | H : (if ?b then _ else _) = _ |- _ => by destruct b
              end ].
Qed.

Lemma mutation_follows_the_lookup_witness :
  existsb is_create
    (calls memory_api
       (main memory_api (www_request "present") ∅
          (start memory_api [mail_record; www_record])).2) = false.
Proof.
  apply (proj1 (mutation_follows_the_lookup memory_api (www_request "present") ∅
                  [mail_record; www_record] [mail_record; www_record]
                  (PyStr "secret") "A" "example.com" [mail_record; www_record]
                  eq_refl eq_refl eq_refl ltac:(discriminate) eq_refl eq_refl)).
  by exists www_record.
Defined.

(** ** The class-level manager *)

(** X15. The classmethods of [DomainRecord] reach the client through the
    class attribute [manager], which is [None] until [Domain.setup] runs:
    called before it, [find_record], [add] and [destroy] each raise
    [AttributeError] on [None], send nothing and leave the state as it
    is. *)
Theorem classmethods_need_setup (api : Dopy) (s : state api)
    (domain type data name priority port weight id : pyval) :
  DomainRecord_manager api s = None →
  DomainRecord_find_record api domain type data name priority port weight s =
  (Raise (AttributeError
            "'NoneType' object has no attribute 'all_domain_records'"), s) ∧
  DomainRecord_add api domain type data name priority port weight s =
  (Raise (AttributeError
            "'NoneType' object has no attribute 'new_domain_record'"), s) ∧
  DomainRecord_destroy api domain id s =
  (Raise (AttributeError
            "'NoneType' object has no attribute 'destroy_domain_record'"), s).
Proof.
  intros Hnone. repeat split; apply wp_run; wp_steps; rewrite Hnone; by wp_steps.
Qed.

Lemma classmethods_need_setup_witness :
  DomainRecord_find_record memory_api (PyStr "example.com") (PyStr "A")
    (PyStr "127.0.0.1") (PyStr "www") PyNone PyNone PyNone
    (start memory_api [www_record]) =
  (Raise (AttributeError
            "'NoneType' object has no attribute 'all_domain_records'"),
   start memory_api [www_record]).
Proof.
  apply (proj1 (classmethods_need_setup memory_api (start memory_api [www_record])
                  (PyStr "example.com") (PyStr "A") (PyStr "127.0.0.1")
                  (PyStr "www") PyNone PyNone PyNone PyNone eq_refl)).
Defined.

(** ** Instances and the JSON they are built from *)

(** X16. [__init__] and [update_attr] are one function,
    [self.__dict__.update(json)]. For each of the names the module reads
    from an instance (type, data, name, priority, port, weight, id), the
    attribute of the updated instance is the member of [json] when [json]
    has one and the attribute the instance had before otherwise; and on a
    fresh instance [to_json] gives [json] back exactly when [json] has no
    member named [to_json]. *)
Theorem update_attr_overrides_and_keeps (self : DomainRecord)
    (json : gmap string pyval) (k : string) :
  In k instance_attributes →
  getattr (DomainRecord_update_attr self json) k
  = match json !! k with
    | Some v => Ok v
    | None => getattr self k
    end ∧
  getattr (DomainRecord_update_attr (Build_DomainRecord ∅) json) k
  = getattr (Build_DomainRecord json) k ∧
  (to_json (Instance (DomainRecord_update_attr (Build_DomainRecord ∅) json))
   = Ok json ↔ json !! "to_json" = None).
Proof.
  intros _. repeat split.
  - unfold getattr, DomainRecord_update_attr. cbn [__dict__].
    destruct (json !! k) as [v|] eqn:Hk.
    + by rewrite (lookup_union_Some_l _ _ _ _ Hk).
    + by rewrite (lookup_union_r _ _ _ Hk).
  - unfold DomainRecord_update_attr. cbn [__dict__].
    by rewrite (right_id_L ∅ (∪)).
  - unfold DomainRecord_update_attr. cbn [to_json __dict__].
    rewrite (right_id_L ∅ (∪)). by destruct (json !! "to_json").
  - unfold DomainRecord_update_attr. cbn [to_json __dict__].
    rewrite (right_id_L ∅ (∪)). by intros ->.
Qed.

Lemma update_attr_overrides_and_keeps_witness :
  getattr (DomainRecord_update_attr (Build_DomainRecord www_record) mail_record)
    "type"
  = Ok (PyStr "MX").
Proof.
  apply (proj1 (update_attr_overrides_and_keeps (Build_DomainRecord www_record)
                  mail_record "type" ltac:(left; reflexivity))).
Defined.

(** ** How a run ends *)

(** X17. Over a client that raises only exceptions, every run ends in a
    result envelope and in nothing else: it never returns normally and no
    exception leaves [main]; the exit status is 0, or it is 1 and the
    envelope starts with a [msg]. This holds from any state, for all
    parameters, environments and answers of the client. *)
Theorem run_ends_in_an_envelope (api : Dopy) (module : AnsibleModule)
    (environ : gmap string string) (s : state api) :
  raises_only_exceptions api →
  (∃ kw, (main api module environ s).1 = Raise (SystemExit 0 kw)) ∨
  (∃ msg rest,
     (main api module environ s).1 =
     Raise (SystemExit 1 (("msg", JVal (PyStr msg)) :: rest))).
Proof.
  intros Hclient.
  apply (wp_intro (main api module environ)
           (λ o _, (∃ kw, o = Raise (SystemExit 0 kw)) ∨
                   (∃ msg rest,
                      o = Raise (SystemExit 1 (("msg", JVal (PyStr msg)) :: rest))))).
  unfold main, core, core_api_token, getkeyordie. wp_params module.
  wp_all; try (by left; eexists); try (by right; eexists _, _).
  all: not_an_exit Hclient.
Qed.

Lemma run_ends_in_an_envelope_witness :
  (∃ kw, (main memory_api (www_request "absent") ∅ (start memory_api [])).1
         = Raise (SystemExit 0 kw)) ∨
  (∃ msg rest,
     (main memory_api (www_request "absent") ∅ (start memory_api [])).1 =
     Raise (SystemExit 1 (("msg", JVal (PyStr msg)) :: rest))).
Proof.
  apply (run_ends_in_an_envelope memory_api (www_request "absent") ∅
           (start memory_api []) memory_api_raises_nothing).
Defined.
